(** * research_agent.py: the result protocol of the research worker

    A shallow embedding of [src/python/research_agent.py]: the depth
    settings table, the orchestration of the engine calls under the
    standard-output capture, the validation of what the engine returns,
    the findings dictionary, and the entry point with its JSON envelopes
    and exit codes. *)

From Stdlib Require Import Ascii String DecimalString DecimalNat.
From stdpp Require Import gmap list fin_maps.

Open Scope Z_scope.

(** ** Python strings

    A Python [str] is a sequence of Unicode code points, so [len] and
    slicing count code points. *)

Abbreviation pystr := (list N).

(** An ASCII literal of the source, as code points. *)
Definition u (s : string) : pystr := N_of_ascii <$> list_ascii_of_string s.
Arguments u : simpl never.

(** [s[:n]] for a non-negative literal [n]. *)
Definition slice_to {A} (n : nat) (s : list A) : list A := take n s.

(** [l[:n]] for any Python integer [n]: a negative bound counts from the
    end of the list. *)
Definition slice_to_Z {A} (n : Z) (l : list A) : list A :=
  if 0 <=? n then take (Z.to_nat n) l
  else take (length l - Z.to_nat (- n)) l.

(** [needle in hay] on strings. *)
Fixpoint starts_with (needle hay : pystr) : bool :=
  match needle, hay with
  | [], _ => true
  | _ :: _, [] => false
  | a :: needle', b :: hay' => (a =? b)%N && starts_with needle' hay'
  end.

Fixpoint contains (needle hay : pystr) : bool :=
  starts_with needle hay ||
  match hay with
  | [] => false
  | _ :: hay' => contains needle hay'
  end.

(** [str(n)] for a non-negative integer: its decimal digits. *)
Definition str_of_nat (n : nat) : pystr :=
  u (NilEmpty.string_of_uint (Nat.to_uint n)).

(** The two code points of the warning sign that opens the placeholder
    texts: U+26A0 and the variation selector U+FE0F. *)
Definition warning_sign : pystr := [9888%N; 65039%N].

(** The line feed of the [\n] escapes. *)
Definition nl : pystr := [10%N].

(** ** Exceptions

    The exceptions of the model are instances of [Exception], the ones
    an [except Exception] clause catches. *)

Inductive exc_class :=
| ImportError
| ModuleNotFoundError
| KeyError
| ValueError
| OtherException (name : pystr).

(** [type(e).__name__] *)
Definition class_name (c : exc_class) : pystr :=
  match c with
  | ImportError => u "ImportError"
  | ModuleNotFoundError => u "ModuleNotFoundError"
  | KeyError => u "KeyError"
  | ValueError => u "ValueError"
  | OtherException name => name
  end.

(** [isinstance(e, ImportError)]: the class or its subclass. *)
Definition is_ImportError (c : exc_class) : bool :=
  match c with
  | ImportError | ModuleNotFoundError => true
  | _ => false
  end.

(** An exception instance: its class and [str(e)]. *)
Record exn := Exn { exn_class : exc_class; exn_str : pystr }.

(** The outcome of a call: a value, or a raised exception. *)
Inductive result (A : Type) :=
| Ok (v : A)
| Raise (e : exn).
Arguments Ok {A} v.
Arguments Raise {A} e.

(** ** ResearchConfig *)

Record Settings := {
  max_sources : Z;
  max_iterations : Z;
  report_type : pystr
}.

Definition DEPTH_SETTINGS : gmap pystr Settings :=
  {[ u "quick" :=
       {| max_sources := 5; max_iterations := 2;
          report_type := u "research_report" |};
     u "moderate" :=
       {| max_sources := 10; max_iterations := 4;
          report_type := u "research_report" |};
     u "deep" :=
       {| max_sources := 20; max_iterations := 6;
          report_type := u "detailed_report" |} ]}.

(** [d[k]]: raises [KeyError] on a missing key. *)
Definition getitem (d : gmap pystr Settings) (k : pystr) : result Settings :=
  match d !! k with
  | Some v => Ok v
  | None => Raise (Exn KeyError k)
  end.

(** [cls.DEPTH_SETTINGS.get(depth, cls.DEPTH_SETTINGS["moderate"])]: the
    default is evaluated before the lookup. *)
Definition get_settings (depth : pystr) : result Settings :=
  match getitem DEPTH_SETTINGS (u "moderate") with
  | Ok dflt => Ok (default dflt (DEPTH_SETTINGS !! depth))
  | Raise e => Raise e
  end.

(** ** What the program hands to [json.dumps]

    Dictionaries keep their insertion order, which is the order of the
    keys in the emitted document. *)

#[warnings="-register-all"]
Inductive pyval :=
| VStr (s : pystr)
| VInt (n : Z)
| VList (items : list pyval)
| VDict (entries : list (pystr * pyval)).

(** [d.get(k)] on the entries of a dictionary. *)
Fixpoint entries_get (k : pystr) (entries : list (pystr * pyval)) : option pyval :=
  match entries with
  | [] => None
  | (k', v) :: rest => if decide (k = k') then Some v else entries_get k rest
  end.

Definition field (k : pystr) (d : pyval) : option pyval :=
  match d with
  | VDict entries => entries_get k entries
  | _ => None
  end.

(** The keys of a dictionary, in order. *)
Definition keys (d : pyval) : list pystr :=
  match d with
  | VDict entries => fst <$> entries
  | _ => []
  end.

(** ** What the engine hands back

    [write_report()] and [get_source_urls()] may return any object. The
    program inspects such an object with [isinstance(_, str)],
    [is None], [isinstance(_, list)] and [type(_)]; it inspects an
    element of the list with its truth value and [str(_)]. *)

Inductive url_item :=
| ItemNone
| ItemStr (s : pystr)
| ItemOther (truth : bool) (text : pystr).

Inductive pyobj :=
| PyNone
| PyStr (s : pystr)
| PyList (items : list url_item)
| PyOther (class_path : pystr).

(** [if url] *)
Definition truthy (x : url_item) : bool :=
  match x with
  | ItemNone => false
  | ItemStr s => negb (bool_decide (s = []))
  | ItemOther truth _ => truth
  end.

(** [str(url)] *)
Definition py_str (x : url_item) : pystr :=
  match x with
  | ItemNone => u "None"
  | ItemStr s => s
  | ItemOther _ text => text
  end.

(** [f"{type(x)}"] *)
Definition format_type (x : pyobj) : pystr :=
  u "<class '" ++
  match x with
  | PyNone => u "NoneType"
  | PyStr _ => u "str"
  | PyList _ => u "list"
  | PyOther class_path => class_path
  end ++ u "'>".

(** A call into the engine: what it writes to [sys.stdout] while it
    runs, write by write, and how it ends. *)
Record reply (A : Type) := Reply {
  printed : list pystr;
  returned : result A
}.
Arguments Reply {A} printed returned.
Arguments printed {A} r.
Arguments returned {A} r.

(** A [GPTResearcher] instance. *)
Record Researcher := {
  r_conduct_research : reply unit;
  r_write_report : reply pyobj;
  r_get_source_urls : reply pyobj
}.

(** [from gpt_researcher import GPTResearcher]: the import binds the
    class, called with [query] and [report_type], or raises. The engine
    writes through [sys.stdout] only, and only during the calls on the
    class and its instance. *)
Inductive module :=
| Installed (GPTResearcher : pystr -> pystr -> reply Researcher)
| NotLoadable (e : exn).

(** ** The process *)

(** The objects [sys.stdout] is bound to during a run: the stream the
    process started with, and the [StringIO] buffer of the capture. *)
Inductive stream :=
| RealStdout
| CapturedOutput.

Inductive level := NOTSET | DEBUG | INFO | WARNING | ERROR | CRITICAL.

(** The number of a level, by which [logging] compares levels. *)
Definition level_no (l : level) : Z :=
  match l with
  | NOTSET => 0
  | DEBUG => 10
  | INFO => 20
  | WARNING => 30
  | ERROR => 40
  | CRITICAL => 50
  end.

(** A record handed to the [logging] module, whose handler was bound to
    [sys.stderr] by [basicConfig]. *)
Record log_record := LogRecord {
  logger : pystr;
  lvl : level;
  msg : pystr
}.

Inductive engine_call :=
| CallImport
| CallGPTResearcher (query report_type_arg : pystr)
| CallConductResearch
| CallWriteReport
| CallGetSourceUrls.

(** [stdout] and [stderr] hold what was written to the two standard
    streams of the process, write by write: the texts printed and, on
    [stderr], the lines of the logging handler. [logged] lists the
    records handed to [logging], [captured_output] is the content of the
    [StringIO] buffer, and [calls] lists the calls made into the
    engine. *)
Record world := World {
  sys_stdout : stream;
  stdout : list pystr;
  stderr : list pystr;
  captured_output : pystr;
  logged : list log_record;
  calls : list engine_call
}.

Definition initial : world :=
  {| sys_stdout := RealStdout; stdout := []; stderr := [];
     captured_output := []; logged := []; calls := [] |}.

Definition with_sys_stdout (s : stream) (w : world) : world :=
  {| sys_stdout := s; stdout := stdout w; stderr := stderr w;
     captured_output := captured_output w; logged := logged w;
     calls := calls w |}.

Definition with_captured_output (s : pystr) (w : world) : world :=
  {| sys_stdout := sys_stdout w; stdout := stdout w; stderr := stderr w;
     captured_output := s; logged := logged w; calls := calls w |}.

Definition with_stdout (l : list pystr) (w : world) : world :=
  {| sys_stdout := sys_stdout w; stdout := l; stderr := stderr w;
     captured_output := captured_output w; logged := logged w;
     calls := calls w |}.

Definition with_stderr (l : list pystr) (w : world) : world :=
  {| sys_stdout := sys_stdout w; stdout := stdout w; stderr := l;
     captured_output := captured_output w; logged := logged w;
     calls := calls w |}.

Definition with_logged (l : list log_record) (w : world) : world :=
  {| sys_stdout := sys_stdout w; stdout := stdout w; stderr := stderr w;
     captured_output := captured_output w; logged := l; calls := calls w |}.

Definition with_calls (l : list engine_call) (w : world) : world :=
  {| sys_stdout := sys_stdout w; stdout := stdout w; stderr := stderr w;
     captured_output := captured_output w; logged := logged w; calls := l |}.

(** [sys.stdout.write(s)], whatever [sys.stdout] is bound to. *)
Definition write_sys_stdout (s : pystr) (w : world) : world :=
  match sys_stdout w with
  | RealStdout => with_stdout (stdout w ++ [s]) w
  | CapturedOutput => with_captured_output (captured_output w ++ s) w
  end.

(** [print(s)] and [print(s, file=sys.stderr)]. *)
Definition print (s : pystr) (w : world) : world :=
  write_sys_stdout (s ++ nl) w.

Definition print_stderr (s : pystr) (w : world) : world :=
  with_stderr (stderr w ++ [s ++ nl]) w.

(** Computations that read and change the process and may raise. *)
Definition M (A : Type) : Type := world -> world * result A.

Definition ret {A} (v : A) : M A := fun w => (w, Ok v).

Definition raise {A} (e : exn) : M A := fun w => (w, Raise e).

Definition bind {A B} (m : M A) (k : A -> M B) : M B :=
  fun w =>
    match m w with
    | (w', Ok v) => k v w'
    | (w', Raise e) => (w', Raise e)
    end.

Instance M_ret : MRet M := @ret.
Instance M_bind : MBind M := fun A B k m => bind m k.

Definition lift {A} (r : result A) : M A := fun w => (w, r).

Definition modify (f : world -> world) : M unit := fun w => (f w, Ok tt).

Definition get_sys_stdout : M stream := fun w => (w, Ok (sys_stdout w)).

(** [captured_output.getvalue()] *)
Definition getvalue : M pystr := fun w => (w, Ok (captured_output w)).

(** A call into the engine: it is recorded, its writes go to
    [sys.stdout], and it returns or raises. *)
Definition call {A} (c : engine_call) (r : reply A) : M A :=
  fun w =>
    (foldl (fun w' s => write_sys_stdout s w') (with_calls (calls w ++ [c]) w)
       (printed r),
     returned r).

(** [try: body / except Exception as e: handler e / finally: final]. *)
Definition try_except_finally {A}
    (body : M A) (handler : exn -> M A) (final : M unit) : M A :=
  fun w =>
    let '(w1, r1) := body w in
    let '(w2, r2) :=
      match r1 with
      | Ok v => (w1, Ok v)
      | Raise e => handler e w1
      end in
    let '(w3, r3) := final w2 in
    match r3 with
    | Ok _ => (w3, r2)
    | Raise e => (w3, Raise e)
    end.

(** ** Library functions and the logging configuration

    [json.dumps], [str.lower] and [str.strip] belong to Python's
    library, and so does the formatter of the logging handler, which
    renders a record as the time, the name of the logger, the name of
    the level and the message. [root_level] is the level that
    [basicConfig] gave the root logger when the module was loaded, from
    [RESEARCH_LOG_LEVEL] or else [WARNING]. The development is
    parametric in all of them. *)
Class PyLib := {
  json_dumps : option nat -> pyval -> pystr;
  str_lower : pystr -> pystr;
  str_strip : pystr -> pystr;
  format_record : log_record -> pystr;
  root_level : level
}.

Section ResearchAgent.

Context {lib : PyLib}.

(** The handler of the root logger, bound to [sys.stderr]: a record
    whose level is at least that of the root logger is written as one
    line. The logger [research_agent] has no level and no handler of its
    own, so its records pass the same test and reach the same
    handler. *)
Definition handler_lines (record : log_record) : list pystr :=
  if level_no root_level <=? level_no (lvl record)
  then [format_record record ++ nl]
  else [].

(** A logging call. *)
Definition log (name : pystr) (l : level) (m : pystr) : M unit :=
  modify (fun w =>
    with_stderr (stderr w ++ handler_lines (LogRecord name l m))
      (with_logged (logged w ++ [LogRecord name l m]) w)).

(** ** conduct_research *)

(** [enumerate(l)] *)
Fixpoint enumerate_from {A} (start : nat) (l : list A) : list (nat * A) :=
  match l with
  | [] => []
  | x :: l' => (start, x) :: enumerate_from (S start) l'
  end.

Definition enumerate {A} (l : list A) : list (nat * A) := enumerate_from 0 l.

(** The placeholder findings returned when the import fails. *)
Definition poc_findings (instructions depth : pystr) (config : Settings) : pyval :=
  VDict [
    (u "query", VStr instructions);
    (u "depth", VStr depth);
    (u "summary",
      VStr (warning_sign ++
            u " POC MODE: GPT Researcher not installed. This is TEST DATA."));
    (u "fullReport",
      VStr (u "# POC Mode Research Report" ++ nl ++ nl ++
            u "Query: " ++ instructions ++ nl ++
            u "Depth: " ++ depth ++ nl ++ nl ++
            warning_sign ++
            u " This is simulated data because GPT Researcher is not installed." ++ nl ++
            u "To enable real research:" ++ nl ++
            u "1. Ensure Python venv is activated" ++ nl ++
            u "2. Run: pip install gpt-researcher" ++ nl ++
            u "3. Set OPENAI_API_KEY in .env" ++ nl));
    (u "sources",
      VList [
        VDict [(u "url", VStr (u "https://example.com/source1"));
               (u "title", VStr (u "Example Source 1"))];
        VDict [(u "url", VStr (u "https://example.com/source2"));
               (u "title", VStr (u "Example Source 2"))]]);
    (u "sourcesAnalyzed", VInt 2);
    (u "metadata",
      VDict [
        (u "maxSources", VInt (max_sources config));
        (u "maxIterations", VInt (max_iterations config));
        (u "reportType", VStr (u "poc_mode"));
        (u "mode", VStr (u "POC"));
        (u "status", VStr (u "test"));
        (u "warning", VStr (u "GPT Researcher not installed - using test data"))])
  ].

(** The [summary] expression:
    [report[:500] + "..." if len(report) > 500 else report]. *)
Definition summary_of (report : pystr) : pystr :=
  if (500 <? length report)%nat then slice_to 500 report ++ u "..."
  else report.

(** The [sources] comprehension over [sources[:config["max_sources"]]]. *)
Definition source_entries (sources : list url_item) (config : Settings) : list pyval :=
  (fun '(idx, url) =>
     VDict [(u "url", VStr (py_str url));
            (u "title", VStr (u "Source " ++ str_of_nat (idx + 1)))])
  <$> List.filter (fun '(idx, url) => truthy url)
        (enumerate (slice_to_Z (max_sources config) sources)).

(** The findings built from the validated report and sources. *)
Definition findings_of (instructions depth : pystr) (report : pystr)
    (sources : list url_item) (config : Settings) : pyval :=
  VDict [
    (u "query", VStr instructions);
    (u "depth", VStr depth);
    (u "summary", VStr (summary_of report));
    (u "fullReport", VStr report);
    (u "sources", VList (source_entries sources config));
    (u "sourcesAnalyzed", VInt (Z.of_nat (length sources)));
    (u "metadata",
      VDict [
        (u "maxSources", VInt (max_sources config));
        (u "maxIterations", VInt (max_iterations config));
        (u "reportType", VStr (report_type config))])
  ].

(** The statements of the [try] block: the constructor and the three
    calls on the instance. *)
Definition engine_calls (GPTResearcher : pystr -> pystr -> reply Researcher)
    (instructions : pystr) (config : Settings) : M (pyobj * pyobj) :=
  researcher ← call (CallGPTResearcher instructions (report_type config))
                 (GPTResearcher instructions (report_type config));
  call CallConductResearch (r_conduct_research researcher);;
  report ← call CallWriteReport (r_write_report researcher);
  sources ← call CallGetSourceUrls (r_get_source_urls researcher);
  mret (report, sources).

(** [if suppressed_output.strip():] *)
Definition nonblank (s : pystr) : bool :=
  negb (bool_decide (str_strip s = [])).

Definition error_patterns : list pystr :=
  [u "error"; u "failed"; u "timeout"; u "exception"].

(** The [except Exception] clause of the capture: log, then re-raise. *)
Definition capture_handler {A} (e : exn) : M A :=
  suppressed_output ← getvalue;
  (if nonblank suppressed_output
   then log (u "research_agent") ERROR
          (u "Research failed with suppressed output: " ++
           slice_to 500 suppressed_output)
   else mret tt);;
  raise e.

(** The [finally] clause of the capture. *)
Definition capture_finally (old_stdout : stream) : M unit :=
  modify (with_sys_stdout old_stdout);;
  suppressed_output ← getvalue;
  if nonblank suppressed_output
  then
    if existsb (fun err => contains err (str_lower suppressed_output))
         error_patterns
    then log (u "research_agent") WARNING
           (u "Suppressed output contained errors: " ++
            slice_to 200 suppressed_output)
    else log (u "research_agent") DEBUG
           (u "Suppressed output: " ++ slice_to 200 suppressed_output)
  else mret tt.

(** The capture of standard output around the statements of the [try]
    block, which are passed as [body]. *)
Definition capture_stdout {A} (body : M A) : M A :=
  old_stdout ← get_sys_stdout;
  modify (with_captured_output []);;
  modify (with_sys_stdout CapturedOutput);;
  try_except_finally body capture_handler (capture_finally old_stdout).

(** The checks on what the engine returned: the report and the list of
    sources, or the [ValueError] raised. *)
Definition validate (report sources : pyobj) : result (pystr * list url_item) :=
  match report with
  | PyStr report_text =>
      match sources with
      | PyNone => Ok (report_text, [])
      | PyList items => Ok (report_text, items)
      | _ =>
          Raise (Exn ValueError
                   (u "Research sources must be list, got " ++ format_type sources))
      end
  | _ =>
      Raise (Exn ValueError
               (u "Research report must be string, got " ++ format_type report))
  end.

Definition conduct_research (gpt_researcher : module)
    (instructions depth : pystr) : M pyval :=
  modify (fun w => with_calls (calls w ++ [CallImport]) w);;
  match gpt_researcher with
  | NotLoadable e =>
      if is_ImportError (exn_class e) then
        log (u "root") WARNING
          (u "GPT Researcher not available: " ++ exn_str e ++
           u ". Running in POC mode.");;
        config ← lift (get_settings depth);
        mret (poc_findings instructions depth config)
      else raise e
  | Installed GPTResearcher =>
      config ← lift (get_settings depth);
      '(report, sources) ←
        capture_stdout (engine_calls GPTResearcher instructions config);
      '(report_text, items) ← lift (validate report sources);
      mret (findings_of instructions depth report_text items config)
  end.

(** ** main *)

Definition usage_error : pyval :=
  VDict [
    (u "error", VStr (u "Missing required arguments"));
    (u "usage", VStr (u "python research_agent.py '<instructions>' '<depth>'"));
    (u "example", VStr (u "python research_agent.py 'Research backgammon' 'moderate'"))
  ].

Definition valid_depths : list pystr := [u "quick"; u "moderate"; u "deep"].

Definition depth_error (depth : pystr) : pyval :=
  VDict [
    (u "error", VStr (u "Invalid depth: " ++ depth));
    (u "valid_depths", VList (VStr <$> valid_depths))
  ].

Definition credential_error : pyval :=
  VDict [
    (u "error", VStr (u "OPENAI_API_KEY environment variable not set"));
    (u "solution", VStr (u "Set OPENAI_API_KEY in .env file"))
  ].

Definition research_error (e : exn) : pyval :=
  VDict [
    (u "error", VStr (u "Research failed"));
    (u "message", VStr (exn_str e));
    (u "type", VStr (class_name (exn_class e)))
  ].

(** [not os.getenv(name)]: the variable is unset or empty. *)
Definition getenv_falsy (environ : gmap pystr pystr) (name : pystr) : bool :=
  match environ !! name with
  | None => true
  | Some v => bool_decide (v = [])
  end.

(** The entry point, from the command line, the environment and the
    engine module to the final process state and the exit code. The
    pattern [_ :: instructions :: depth :: _] is [len(sys.argv) >= 3]
    with [sys.argv[1]] and [sys.argv[2]]. *)
Definition main (argv : list pystr) (environ : gmap pystr pystr)
    (gpt_researcher : module) (w : world) : world * Z :=
  match argv with
  | _ :: instructions :: depth :: _ =>
      if negb (bool_decide (depth ∈ valid_depths)) then
        (print_stderr (json_dumps None (depth_error depth)) w, 1)
      else if getenv_falsy environ (u "OPENAI_API_KEY") then
        (print_stderr (json_dumps None credential_error) w, 1)
      else
        match conduct_research gpt_researcher instructions depth w with
        | (w', Ok findings) => (print (json_dumps (Some 2%nat) findings) w', 0)
        | (w', Raise e) => (print_stderr (json_dumps None (research_error e)) w', 1)
        end
  | _ => (print_stderr (json_dumps None usage_error) w, 1)
  end.

End ResearchAgent.

(** ** The statements of the specification, as definitions *)

(** The summary rule: the report itself up to 500 characters, else its
    first 500 characters and an ellipsis. *)
Definition summary_rule (fullReport : pystr) : pystr :=
  if decide (length fullReport ≤ 500)%nat then fullReport
  else take 500 fullReport ++ u "...".

(** A source entry with the title of the 1-based position [k]. *)
Definition source_entry (url : url_item) (k : nat) : pyval :=
  VDict [(u "url", VStr (py_str url));
         (u "title", VStr (u "Source " ++ str_of_nat k))].

(** The sources rule as the specification words it: discard the falsy
    entries, truncate what is left to [maxSources], and number the
    result. *)
Definition sources_rule (urls : list url_item) (maxSources : nat) : list pyval :=
  imap (fun k url => source_entry url (k + 1))
    (take maxSources (List.filter truthy urls)).

(** The sources rule of the program: of the first [maxSources] entries
    of the engine's list, the truthy ones in order, each numbered by its
    position in the engine's list. *)
Definition sources_by_position (urls : list url_item) (maxSources : nat) : list pyval :=
  omap (fun i =>
          match urls !! i with
          | Some url => if truthy url then Some (source_entry url (i + 1)) else None
          | None => None
          end)
    (seq 0 (maxSources `min` length urls)).

(** The checks of the entry point, in their order. *)
Inductive verdict :=
| MissingInputs
| InvalidDepth (depth : pystr)
| MissingCredential
| Accepted (instructions depth : pystr).

Definition first_failing_check (argv : list pystr) (environ : gmap pystr pystr) : verdict :=
  if decide (length argv < 3)%nat then MissingInputs
  else
    let instructions := default [] (argv !! 1%nat) in
    let depth := default [] (argv !! 2%nat) in
    if decide (depth ∉ [u "quick"; u "moderate"; u "deep"]) then InvalidDepth depth
    else
      match environ !! u "OPENAI_API_KEY" with
      | None => MissingCredential
      | Some value =>
          if decide (value = []) then MissingCredential
          else Accepted instructions depth
      end.

(** The URLs of the engine's answer: those of the list, none when the
    answer is [None]. *)
Definition url_list (sources : pyobj) : list url_item :=
  match sources with
  | PyList items => items
  | _ => []
  end.

(** What the engine returns when none of its calls raises. *)
Definition engine_returns (GPTResearcher : pystr -> pystr -> reply Researcher)
    (instructions : pystr) (config : Settings) (report sources : pyobj) : Prop :=
  ∃ researcher,
    returned (GPTResearcher instructions (report_type config)) = Ok researcher ∧
    returned (r_conduct_research researcher) = Ok tt ∧
    returned (r_write_report researcher) = Ok report ∧
    returned (r_get_source_urls researcher) = Ok sources.

(** ** An instance of the library for evaluating the model

    [str.lower] and [str.strip] on their ASCII fragment, and a rendering
    on one line in place of [json.dumps]: escapes and indentation are
    left out. *)

Definition lower_ascii (s : pystr) : pystr :=
  (fun c => if (65 <=? c)%N && (c <=? 90)%N then (c + 32)%N else c) <$> s.

Definition isspace_ascii (c : N) : bool :=
  ((9 <=? c)%N && (c <=? 13)%N) || ((28 <=? c)%N && (c <=? 32)%N).

Fixpoint lstrip_ascii (s : pystr) : pystr :=
  match s with
  | [] => []
  | c :: s' => if isspace_ascii c then lstrip_ascii s' else s
  end.

Definition strip_ascii (s : pystr) : pystr :=
  reverse (lstrip_ascii (reverse (lstrip_ascii s))).

Definition str_of_Z (n : Z) : pystr :=
  u (NilEmpty.string_of_int (Z.to_int n)).

Fixpoint render (v : pyval) : pystr :=
  match v with
  | VStr s => u "'" ++ s ++ u "'"
  | VInt n => str_of_Z n
  | VList items =>
      u "[" ++
      (fix go (l : list pyval) : pystr :=
         match l with
         | [] => []
         | x :: l' => render x ++ u ", " ++ go l'
         end) items ++ u "]"
  | VDict entries =>
      u "{" ++
      (fix go (l : list (pystr * pyval)) : pystr :=
         match l with
         | [] => []
         | (k, x) :: l' => u "'" ++ k ++ u "': " ++ render x ++ u ", " ++ go l'
         end) entries ++ u "}"
  end.

Definition level_name (l : level) : pystr :=
  match l with
  | NOTSET => u "NOTSET"
  | DEBUG => u "DEBUG"
  | INFO => u "INFO"
  | WARNING => u "WARNING"
  | ERROR => u "ERROR"
  | CRITICAL => u "CRITICAL"
  end.

(** The line of a record without its time. *)
Definition format_plain (record : log_record) : pystr :=
  logger record ++ u " - " ++ level_name (lvl record) ++ u " - " ++ msg record.

Definition ascii_lib : PyLib :=
  {| json_dumps := fun _ v => render v;
     str_lower := lower_ascii;
     str_strip := strip_ascii;
     format_record := format_plain;
     root_level := WARNING |}.

(** An engine whose calls print and then return the given report and
    sources. *)
Definition sample_engine (chatter : list pystr) (report sources : pyobj)
    : pystr -> pystr -> reply Researcher :=
  fun _ _ =>
    Reply chatter
      (Ok {| r_conduct_research := Reply chatter (Ok tt);
             r_write_report := Reply [] (Ok report);
             r_get_source_urls := Reply [] (Ok sources) |}).

(** An engine whose research call prints and then raises. *)
Definition failing_engine (chatter : list pystr) (e : exn)
    : pystr -> pystr -> reply Researcher :=
  fun _ _ =>
    Reply []
      (Ok {| r_conduct_research := Reply chatter (Raise e);
             r_write_report := Reply [] (Ok PyNone);
             r_get_source_urls := Reply [] (Ok PyNone) |}).

Definition sample_environ : gmap pystr pystr :=
  {[ u "OPENAI_API_KEY" := u "sk-test" ]}.

(** The exception of an import of a module that is not installed. *)
Definition module_missing : exn :=
  Exn ModuleNotFoundError (u "No module named 'gpt_researcher'").

Definition backgammon : pystr := u "Research backgammon opening strategies".

(** Six URLs, the first of them empty. *)
Definition six_urls : list url_item :=
  [ItemStr []; ItemStr (u "http://a"); ItemStr (u "http://b");
   ItemStr (u "http://c"); ItemStr (u "http://d"); ItemStr (u "http://e")].

Definition quick_settings : Settings :=
  {| max_sources := 5; max_iterations := 2; report_type := u "research_report" |}.
Definition moderate_settings : Settings :=
  {| max_sources := 10; max_iterations := 4; report_type := u "research_report" |}.
Definition deep_settings : Settings :=
  {| max_sources := 20; max_iterations := 6; report_type := u "detailed_report" |}.

(** A computation is quiet when, run while [sys.stdout] is bound to the
    buffer, it leaves the binding, both standard streams and the log as
    they were. *)
Definition quiet {A} (m : M A) : Prop :=
  ∀ w, sys_stdout w = CapturedOutput →
    sys_stdout (m w).1 = CapturedOutput ∧
    stdout (m w).1 = stdout w ∧
    stderr (m w).1 = stderr w ∧
    logged (m w).1 = logged w.

(** The lines that the handler of the root logger writes for a list of
    records. *)
Definition emitted {lib : PyLib} (records : list log_record) : list pystr :=
  records ≫= handler_lines.

(** The step from [w] to [w'] logs and does nothing else to standard
    error: the lines of the new records are what standard error
    gained. *)
Definition logs_only {lib : PyLib} (w w' : world) : Prop :=
  ∃ records,
    logged w' = logged w ++ records ∧
    stderr w' = stderr w ++ emitted records.

(** The records of the capture for a captured text: one of the
    [except] clause when the body raised, one of the [finally] clause,
    none when the text is blank. *)
Definition capture_records {lib : PyLib} (text : pystr) (raised : bool)
    : list log_record :=
  if nonblank text then
    (if raised then
       [LogRecord (u "research_agent") ERROR
          (u "Research failed with suppressed output: " ++ take 500 text)]
     else []) ++
    [if existsb (fun err => contains err (str_lower text)) error_patterns
     then LogRecord (u "research_agent") WARNING
            (u "Suppressed output contained errors: " ++ take 200 text)
     else LogRecord (u "research_agent") DEBUG
            (u "Suppressed output: " ++ take 200 text)]
  else [].

Definition raised {A} (r : result A) : bool :=
  match r with
  | Ok _ => false
  | Raise _ => true
  end.

(** The state in which the statements of the [try] block start. *)
Definition capturing (w : world) : world :=
  with_sys_stdout CapturedOutput (with_captured_output [] w).

(** ** The calls of the [try] block as a whole

    The constructor and the three calls on the instance, in their order
    and up to the first that raises: how they end, what they write to
    [sys.stdout], and which of them are made. *)

Definition engine_outcome (GPTResearcher : pystr -> pystr -> reply Researcher)
    (instructions : pystr) (config : Settings) : result (pyobj * pyobj) :=
  match returned (GPTResearcher instructions (report_type config)) with
  | Raise e => Raise e
  | Ok researcher =>
      match returned (r_conduct_research researcher) with
      | Raise e => Raise e
      | Ok _ =>
          match returned (r_write_report researcher) with
          | Raise e => Raise e
          | Ok report =>
              match returned (r_get_source_urls researcher) with
              | Raise e => Raise e
              | Ok sources => Ok (report, sources)
              end
          end
      end
  end.

Definition engine_output (GPTResearcher : pystr -> pystr -> reply Researcher)
    (instructions : pystr) (config : Settings) : pystr :=
  concat (printed (GPTResearcher instructions (report_type config))) ++
  match returned (GPTResearcher instructions (report_type config)) with
  | Raise _ => []
  | Ok researcher =>
      concat (printed (r_conduct_research researcher)) ++
      match returned (r_conduct_research researcher) with
      | Raise _ => []
      | Ok _ =>
          concat (printed (r_write_report researcher)) ++
          match returned (r_write_report researcher) with
          | Raise _ => []
          | Ok _ => concat (printed (r_get_source_urls researcher))
          end
      end
  end.

Definition engine_trace (GPTResearcher : pystr -> pystr -> reply Researcher)
    (instructions : pystr) (config : Settings) : list engine_call :=
  CallGPTResearcher instructions (report_type config) ::
  match returned (GPTResearcher instructions (report_type config)) with
  | Raise _ => []
  | Ok researcher =>
      CallConductResearch ::
      match returned (r_conduct_research researcher) with
      | Raise _ => []
      | Ok _ =>
          CallWriteReport ::
          match returned (r_write_report researcher) with
          | Raise _ => []
          | Ok _ => [CallGetSourceUrls]
          end
      end
  end.

(** Two engines that end every call alike, whatever they write. *)
Definition same_answers (G G' : pystr -> pystr -> reply Researcher) : Prop :=
  ∀ query report_type_arg,
    match returned (G query report_type_arg),
          returned (G' query report_type_arg) with
    | Ok r, Ok r' =>
        returned (r_conduct_research r) = returned (r_conduct_research r') ∧
        returned (r_write_report r) = returned (r_write_report r') ∧
        returned (r_get_source_urls r) = returned (r_get_source_urls r')
    | Raise e, Raise e' => e = e'
    | _, _ => False
    end.

(** The keys of every findings dictionary. *)
Definition findings_keys : list pystr :=
  [u "query"; u "depth"; u "summary"; u "fullReport"; u "sources";
   u "sourcesAnalyzed"; u "metadata"].

(** An engine that prints the same as [sample_engine] does with
    [chatter], more loudly. *)
Definition loud_engine (report sources : pyobj)
    : pystr -> pystr -> reply Researcher :=
  fun _ _ =>
    Reply [u "WARNING: "; u "rate limit"]
      (Ok {| r_conduct_research := Reply [u "fetching"] (Ok tt);
             r_write_report := Reply [u "writing"] (Ok report);
             r_get_source_urls := Reply [] (Ok sources) |}).



(** Two URLs, none of them falsy. *)
Definition two_urls : list url_item :=
  [ItemStr (u "http://a"); ItemStr (u "http://b")].

(** An environment whose credential is set to the empty string. *)
Definition empty_key_environ : gmap pystr pystr :=
  {[ u "OPENAI_API_KEY" := [] ]}.

(** * Properties *)

(** ** Runs on concrete inputs *)

Example get_settings_quick :
  get_settings (u "quick") =
  Ok {| max_sources := 5; max_iterations := 2;
        report_type := u "research_report" |}.
Proof. vm_compute. reflexivity. Qed.

Example main_sample_run :
  let '(w, code) :=
    main (lib := ascii_lib) [u "research_agent.py"; u "topic"; u "quick"] sample_environ
      (Installed (sample_engine [u "noise"] (PyStr (u "report"))
                   (PyList [ItemStr (u "http://a"); ItemNone; ItemStr (u "http://b")])))
      initial in
  code = 0 ∧ length (stdout w) = 1%nat ∧ stderr w = [] ∧
  sys_stdout w = RealStdout ∧ captured_output w = u "noisenoise" ∧
  lvl <$> logged w = [DEBUG].
Proof. vm_compute. repeat split; reflexivity. Qed.

Example main_failing_run :
  let '(w, code) :=
    main (lib := ascii_lib) [u "research_agent.py"; u "topic"; u "quick"] sample_environ
      (Installed (failing_engine [u "Timeout!"] (Exn (OtherException (u "RuntimeError")) (u "boom"))))
      initial in
  code = 1 ∧ stdout w = [] ∧ length (stderr w) = 3%nat ∧
  sys_stdout w = RealStdout ∧ lvl <$> logged w = [ERROR; WARNING].
Proof. vm_compute. repeat split; reflexivity. Qed.

(** ** The settings table *)

Lemma get_settings_cases (depth : pystr) :
  get_settings depth =
  Ok (if decide (depth = u "quick") then quick_settings
      else if decide (depth = u "deep") then deep_settings
      else moderate_settings).
Proof.
  unfold get_settings.
  replace (getitem DEPTH_SETTINGS (u "moderate")) with (Ok moderate_settings)
    by (vm_compute; reflexivity).
  f_equal. unfold DEPTH_SETTINGS.
  rewrite lookup_insert. case_decide as Hq.
  { subst. rewrite decide_True by reflexivity. reflexivity. }
  rewrite decide_False by congruence.
  rewrite lookup_insert. case_decide as Hm.
  { subst. rewrite decide_False by (vm_compute; congruence). reflexivity. }
  rewrite lookup_singleton. case_decide as Hd.
  { subst. rewrite decide_True by reflexivity. reflexivity. }
  rewrite decide_False by congruence. reflexivity.
Qed.

(** ** The monad and the capture *)

Ltac unfold_monad :=
  unfold mbind, mret, M_bind, M_ret, bind, ret, raise, lift, modify, log,
    getvalue, get_sys_stdout in *.

Lemma write_sys_stdout_captured s w :
  sys_stdout w = CapturedOutput →
  sys_stdout (write_sys_stdout s w) = CapturedOutput ∧
  stdout (write_sys_stdout s w) = stdout w ∧
  stderr (write_sys_stdout s w) = stderr w ∧
  calls (write_sys_stdout s w) = calls w ∧
  logged (write_sys_stdout s w) = logged w.
Proof. intros Hc. unfold write_sys_stdout. rewrite Hc. simpl. auto. Qed.

Lemma writes_captured (texts : list pystr) w :
  sys_stdout w = CapturedOutput →
  let w' := foldl (fun w' s => write_sys_stdout s w') w texts in
  sys_stdout w' = CapturedOutput ∧ stdout w' = stdout w ∧
  stderr w' = stderr w ∧ calls w' = calls w ∧ logged w' = logged w.
Proof.
  revert w. induction texts as [|s texts IH]; intros w Hc; simpl.
  - auto.
  - destruct (write_sys_stdout_captured s w Hc) as (H1 & H2 & H3 & H4 & H5).
    destruct (IH _ H1) as (I1 & I2 & I3 & I4 & I5). simpl in *.
    repeat split; congruence.
Qed.

Lemma quiet_call {A} c (r : reply A) : quiet (call c r).
Proof.
  intros w Hc. unfold call. simpl.
  destruct (writes_captured (printed r) (with_calls (calls w ++ [c]) w) Hc)
    as (H1 & H2 & H3 & _ & H5). simpl in *. auto.
Qed.

Lemma quiet_ret {A} (v : A) : quiet (mret v).
Proof. intros w Hc. unfold_monad. simpl. auto. Qed.

Lemma quiet_bind {A B} (m : M A) (k : A → M B) :
  quiet m → (∀ v, quiet (k v)) → quiet (m ≫= k).
Proof.
  intros Hm Hk w Hc. unfold_monad.
  destruct (Hm w Hc) as (H1 & H2 & H3 & H4).
  destruct (m w) as [w1 [v|e]]; simpl in *.
  - destruct (Hk v w1 H1) as (K1 & K2 & K3 & K4). repeat split; congruence.
  - auto.
Qed.

Section Capture.

Context {lib : PyLib}.

Lemma emitted_app records records' :
  emitted (records ++ records') = emitted records ++ emitted records'.
Proof. unfold emitted. apply bind_app. Qed.

Lemma emitted_singleton record : emitted [record] = handler_lines record.
Proof. unfold emitted. cbn [mbind list_bind]. apply app_nil_r. Qed.

Lemma logs_only_refl w : logs_only w w.
Proof. exists []. rewrite !app_nil_r. auto. Qed.

Lemma logs_only_initial w :
  logs_only initial w → stderr w = emitted (logged w).
Proof. intros (records & -> & ->). reflexivity. Qed.

Lemma quiet_engine_calls G instructions config :
  quiet (engine_calls G instructions config).
Proof.
  unfold engine_calls.
  repeat (apply quiet_bind; [apply quiet_call | intros ?]).
  apply quiet_ret.
Qed.

(** The capture hands on the outcome of its body, and ends with
    [sys.stdout] bound as it was on entry; standard output, the buffer
    and the calls are as the body left them, and the log and standard
    error have gained the records of the capture and their lines. *)
Lemma capture_stdout_outcome {A} (body : M A) (w : world) :
  ∃ w',
    capture_stdout body w = (w', (body (capturing w)).2) ∧
    sys_stdout w' = sys_stdout w ∧
    stdout w' = stdout (body (capturing w)).1 ∧
    captured_output w' = captured_output (body (capturing w)).1 ∧
    calls w' = calls (body (capturing w)).1 ∧
    let records :=
      capture_records (captured_output (body (capturing w)).1)
        (raised (body (capturing w)).2) in
    logged w' = logged (body (capturing w)).1 ++ records ∧
    stderr w' = stderr (body (capturing w)).1 ++ emitted records.
Proof.
  unfold capture_stdout, try_except_finally, capture_handler, capture_finally,
    capture_records.
  unfold_monad.
  cbn -[u existsb error_patterns app take nonblank handler_lines emitted].
  fold (capturing w).
  destruct (body (capturing w)) as [w1 [v|e]];
    cbn -[u existsb error_patterns app take nonblank handler_lines emitted];
    destruct (nonblank (captured_output w1)) eqn:Hnb;
    cbn -[u existsb error_patterns app take nonblank handler_lines emitted];
    rewrite ?Hnb;
    cbn -[u existsb error_patterns app take nonblank handler_lines emitted];
    try destruct (existsb _ error_patterns);
    cbn -[u existsb error_patterns app take nonblank handler_lines emitted];
    eexists; (split; [reflexivity|]);
    cbn -[u existsb error_patterns app take nonblank handler_lines emitted];
    rewrite ?emitted_app, ?emitted_singleton, ?app_nil_r,
      <- ?(assoc_L (++));
    repeat split; try reflexivity.
Qed.

End Capture.

(** ** conduct_research *)

Section Orchestration.

Context {lib : PyLib}.

Lemma engine_calls_returns G instructions config report sources w :
  engine_returns G instructions config report sources →
  (engine_calls G instructions config w).2 = Ok (report, sources).
Proof.
  intros (researcher & H1 & H2 & H3 & H4).
  unfold engine_calls, call. unfold_monad. simpl.
  rewrite H1. simpl. rewrite H2. simpl. rewrite H3. simpl. rewrite H4.
  reflexivity.
Qed.

Lemma engine_calls_ok_inv G instructions config report sources w :
  (engine_calls G instructions config w).2 = Ok (report, sources) →
  engine_returns G instructions config report sources.
Proof.
  unfold engine_calls, call, engine_returns. unfold_monad. simpl.
  destruct (returned (G instructions (report_type config))) as [researcher|e] eqn:H1;
    simpl; [|discriminate].
  destruct (returned (r_conduct_research researcher)) as [[]|e] eqn:H2;
    simpl; [|discriminate].
  destruct (returned (r_write_report researcher)) as [rep|e] eqn:H3;
    simpl; [|discriminate].
  destruct (returned (r_get_source_urls researcher)) as [src|e] eqn:H4;
    simpl; [|discriminate].
  intros [= <- <-]. exists researcher. auto.
Qed.

(** The world in which the engine is called. *)
Lemma conduct_research_installed G instructions depth config w :
  get_settings depth = Ok config →
  ∃ w',
    conduct_research (Installed G) instructions depth w =
      (w',
       match (engine_calls G instructions config
                (capturing (with_calls (calls w ++ [CallImport]) w))).2 with
       | Ok (report, sources) =>
           match validate report sources with
           | Ok (report_text, items) =>
               Ok (findings_of instructions depth report_text items config)
           | Raise e => Raise e
           end
       | Raise e => Raise e
       end) ∧
    sys_stdout w' = sys_stdout w ∧ stdout w' = stdout w ∧ logs_only w w'.
Proof.
  intros Hcfg. unfold conduct_research. rewrite Hcfg.
  set (w0 := with_calls (calls w ++ [CallImport]) w).
  destruct (capture_stdout_outcome (engine_calls G instructions config) w0)
    as (w1 & Hrun & Hs & Ho & _ & _ & Hl & He).
  destruct (quiet_engine_calls G instructions config (capturing w0) eq_refl)
    as (_ & Qo & Qe & Ql).
  change (sys_stdout w0) with (sys_stdout w) in Hs.
  change (stdout (capturing w0)) with (stdout w) in Qo.
  change (stderr (capturing w0)) with (stderr w) in Qe.
  change (logged (capturing w0)) with (logged w) in Ql.
  rewrite Qe in He. rewrite Ql in Hl. rewrite Qo in Ho.
  assert (Hlogs : logs_only w w1) by (eexists; split; eassumption).
  unfold_monad. simpl. fold w0. rewrite Hrun. simpl.
  destruct ((engine_calls G instructions config (capturing w0)).2)
    as [[report sources]|e]; simpl.
  - destruct (validate report sources) as [[report_text items]|e]; simpl;
      eexists; (split; [reflexivity|]); auto.
  - eexists; (split; [reflexivity|]); auto.
Qed.

Lemma conduct_research_fallback e instructions depth config w :
  is_ImportError (exn_class e) = true →
  get_settings depth = Ok config →
  ∃ w',
    conduct_research (NotLoadable e) instructions depth w =
      (w', Ok (poc_findings instructions depth config)) ∧
    sys_stdout w' = sys_stdout w ∧ stdout w' = stdout w ∧ logs_only w w'.
Proof.
  intros Himp Hcfg. unfold conduct_research. rewrite Himp, Hcfg.
  unfold_monad. cbn -[u handler_lines]. eexists. split; [reflexivity|].
  repeat split. eexists. cbn -[u handler_lines].
  rewrite emitted_singleton. split; reflexivity.
Qed.

Lemma conduct_research_import_raises e instructions depth w :
  is_ImportError (exn_class e) = false →
  ∃ w',
    conduct_research (NotLoadable e) instructions depth w = (w', Raise e) ∧
    sys_stdout w' = sys_stdout w ∧ stdout w' = stdout w ∧ logs_only w w'.
Proof.
  intros Himp. unfold conduct_research. rewrite Himp.
  unfold_monad. simpl. eexists. split; [reflexivity|].
  repeat split. exists []. simpl. rewrite !app_nil_r. auto.
Qed.

(** Whatever the engine does, [conduct_research] leaves [sys.stdout]
    bound as it found it, writes nothing to standard output, and adds
    to standard error the lines of its log records only. *)
Lemma conduct_research_frame gpt_researcher instructions depth w :
  let w' := (conduct_research gpt_researcher instructions depth w).1 in
  sys_stdout w' = sys_stdout w ∧ stdout w' = stdout w ∧ logs_only w w'.
Proof.
  destruct gpt_researcher as [G|e].
  - destruct (conduct_research_installed G instructions depth _ w
                (get_settings_cases depth)) as (w' & -> & ?). simpl. auto.
  - destruct (is_ImportError (exn_class e)) eqn:Himp.
    + destruct (conduct_research_fallback e instructions depth _ w Himp
                  (get_settings_cases depth)) as (w' & -> & ?). simpl. auto.
    + destruct (conduct_research_import_raises e instructions depth w Himp)
        as (w' & -> & ?). simpl. auto.
Qed.

End Orchestration.

(** ** main *)

Section EntryPoint.

Context {lib : PyLib}.

(** A successful [conduct_research], read backwards. *)
Lemma conduct_research_ok_inv gpt_researcher instructions depth w w1 findings :
  conduct_research gpt_researcher instructions depth w = (w1, Ok findings) →
  ∃ config,
    get_settings depth = Ok config ∧
    match gpt_researcher with
    | Installed G =>
        ∃ report sources report_text items,
          engine_returns G instructions config report sources ∧
          validate report sources = Ok (report_text, items) ∧
          findings = findings_of instructions depth report_text items config
    | NotLoadable e =>
        is_ImportError (exn_class e) = true ∧
        findings = poc_findings instructions depth config
    end.
Proof.
  intros Hrun. eexists. split; [apply get_settings_cases|].
  destruct gpt_researcher as [G|e].
  - destruct (conduct_research_installed G instructions depth _ w
                (get_settings_cases depth)) as (w' & Heq & _).
    rewrite Heq in Hrun. injection Hrun as _ Hres.
    destruct (engine_calls _ _ _ _).2 as [[report sources]|e] eqn:Hcalls;
      [|discriminate].
    apply engine_calls_ok_inv in Hcalls.
    destruct (validate report sources) as [[report_text items]|e] eqn:Hval;
      [|discriminate].
    injection Hres as <-. exists report, sources, report_text, items. auto.
  - destruct (is_ImportError (exn_class e)) eqn:Himp.
    + destruct (conduct_research_fallback e instructions depth _ w Himp
                  (get_settings_cases depth)) as (w' & Heq & _).
      rewrite Heq in Hrun. injection Hrun as _ <-. auto.
    + destruct (conduct_research_import_raises e instructions depth w Himp)
        as (w' & Heq & _).
      rewrite Heq in Hrun. discriminate.
Qed.

(** [main] follows the first failing check. *)
Lemma main_by_check argv environ gpt_researcher w :
  main argv environ gpt_researcher w =
  match first_failing_check argv environ with
  | MissingInputs => (print_stderr (json_dumps None usage_error) w, 1)
  | InvalidDepth depth => (print_stderr (json_dumps None (depth_error depth)) w, 1)
  | MissingCredential => (print_stderr (json_dumps None credential_error) w, 1)
  | Accepted instructions depth =>
      match conduct_research gpt_researcher instructions depth w with
      | (w', Ok findings) => (print (json_dumps (Some 2%nat) findings) w', 0)
      | (w', Raise e) => (print_stderr (json_dumps None (research_error e)) w', 1)
      end
  end.
Proof.
  unfold first_failing_check.
  destruct argv as [|prog [|instructions [|depth rest]]]; simpl;
    try reflexivity.
  unfold valid_depths.
  case_bool_decide as Hd; simpl.
  - rewrite decide_False by tauto. unfold getenv_falsy.
    destruct (environ !! u "OPENAI_API_KEY") as [value|]; [|reflexivity].
    case_bool_decide; [rewrite decide_True by done | rewrite decide_False by done];
      reflexivity.
  - rewrite decide_True by done. reflexivity.
Qed.

Lemma main_exit_0_inv argv environ gpt_researcher w w' :
  main argv environ gpt_researcher w = (w', 0) →
  ∃ instructions depth w1 findings,
    first_failing_check argv environ = Accepted instructions depth ∧
    conduct_research gpt_researcher instructions depth w = (w1, Ok findings) ∧
    w' = print (json_dumps (Some 2%nat) findings) w1.
Proof.
  rewrite main_by_check.
  destruct (first_failing_check argv environ) as [| | |instructions depth];
    try discriminate.
  destruct (conduct_research gpt_researcher instructions depth w)
    as [w1 [findings|e]] eqn:Hrun; [|discriminate].
  intros [= <-]. exists instructions, depth, w1, findings. auto.
Qed.

End EntryPoint.

(** ** Substrings *)

Lemma starts_with_app needle rest : starts_with needle (needle ++ rest) = true.
Proof.
  induction needle as [|c needle IH]; simpl.
  - destruct rest; reflexivity.
  - rewrite N.eqb_refl. exact IH.
Qed.

Lemma contains_prefix needle hay :
  starts_with needle hay = true → contains needle hay = true.
Proof. intros Hp. destruct hay; simpl; rewrite Hp; reflexivity. Qed.

Lemma contains_cons needle c hay :
  contains needle hay = true → contains needle (c :: hay) = true.
Proof.
  intros Hc. change (contains needle (c :: hay))
    with (starts_with needle (c :: hay) || contains needle hay).
  rewrite Hc. apply orb_true_r.
Qed.

Lemma contains_app before needle rest :
  contains needle (before ++ needle ++ rest) = true.
Proof.
  induction before as [|c before IH].
  - apply contains_prefix. exact (starts_with_app needle rest).
  - exact (contains_cons _ _ _ IH).
Qed.

Lemma contains_skip before needle hay :
  contains needle hay = true → contains needle (before ++ hay) = true.
Proof.
  intros Hc. induction before as [|c before IH]; [exact Hc|].
  exact (contains_cons _ _ _ IH).
Qed.

Ltac find_substring :=
  rewrite <- ?(assoc_L (++));
  repeat first
    [ apply contains_prefix; apply starts_with_app
    | apply contains_skip ].

Lemma first_failing_check_accepted prog instructions depth rest environ key :
  depth ∈ valid_depths →
  environ !! u "OPENAI_API_KEY" = Some key →
  key ≠ [] →
  first_failing_check (prog :: instructions :: depth :: rest) environ =
  Accepted instructions depth.
Proof.
  intros Hd Hk Hne. unfold first_failing_check. simpl.
  rewrite decide_False by (unfold valid_depths in Hd; tauto).
  rewrite Hk. rewrite decide_False by done. reflexivity.
Qed.

(** ** Validation and the sources comprehension *)

Lemma validate_ok_inv report sources report_text items :
  validate report sources = Ok (report_text, items) →
  report = PyStr report_text ∧ items = url_list sources ∧
  (sources = PyNone ∨ sources = PyList items).
Proof.
  unfold validate.
  destruct report; try discriminate.
  destruct sources; try discriminate; intros [= <- <-]; auto.
Qed.

Lemma get_settings_bounds depth config :
  get_settings depth = Ok config → 2 ≤ max_sources config.
Proof.
  rewrite get_settings_cases. intros [= <-].
  repeat case_decide; simpl; lia.
Qed.

Lemma length_enumerate_from {A} (l : list A) k :
  length (enumerate_from k l) = length l.
Proof. revert k. induction l as [|x l IH]; intros k; simpl; auto. Qed.

Lemma length_source_entries items config :
  0 ≤ max_sources config →
  (length (source_entries items config) ≤
   Z.to_nat (max_sources config) `min` length items)%nat.
Proof.
  intros Hmax. unfold source_entries, slice_to_Z, enumerate.
  rewrite (proj2 (Z.leb_le _ _) Hmax).
  rewrite length_fmap.
  etransitivity; [apply List.filter_length_le|].
  rewrite length_enumerate_from, length_take. reflexivity.
Qed.

(** The comprehension over an enumeration that starts at [k], by
    position. *)
Lemma filter_enumerate_by_position (l : list url_item) (k : nat) :
  (fun '(idx, url) => source_entry url (idx + 1)) <$>
    List.filter (fun '(idx, url) => truthy url) (enumerate_from k l) =
  omap (fun j =>
          match l !! j with
          | Some url => if truthy url then Some (source_entry url (k + j + 1)) else None
          | None => None
          end)
    (seq 0 (length l)).
Proof.
  revert k. induction l as [|x l IH]; intros k; [reflexivity|].
  cbn [length seq enumerate_from List.filter].
  rewrite <- fmap_S_seq.
  assert (Htail :
    omap (fun j =>
            match (x :: l) !! j with
            | Some url => if truthy url then Some (source_entry url (k + j + 1)) else None
            | None => None
            end) (S <$> seq 0 (length l)) =
    omap (fun j =>
            match l !! j with
            | Some url => if truthy url then Some (source_entry url (S k + j + 1)) else None
            | None => None
            end) (seq 0 (length l))).
  { apply list_omap_ext, Forall2_fmap_l, Forall_Forall2_diag, Forall_forall.
    intros j _. unfold compose. cbv beta.
    change ((x :: l) !! S j) with (l !! j).
    replace (k + S j + 1)%nat with (S k + j + 1)%nat by lia. reflexivity. }
  cbn [omap list_omap]. change ((x :: l) !! 0%nat) with (Some x).
  cbv beta iota. fold (@omap list _ pyval nat).
  rewrite Htail, <- IH.
  replace (k + 0 + 1)%nat with (k + 1)%nat by lia.
  destruct (truthy x); reflexivity.
Qed.

Lemma source_entries_by_position items config :
  0 ≤ max_sources config →
  source_entries items config =
  sources_by_position items (Z.to_nat (max_sources config)).
Proof.
  intros Hmax. unfold source_entries, sources_by_position, slice_to_Z, enumerate.
  rewrite (proj2 (Z.leb_le _ _) Hmax).
  set (n := Z.to_nat (max_sources config)).
  etransitivity; [apply (filter_enumerate_by_position (take n items) 0)|].
  rewrite length_take.
  apply list_omap_ext, Forall_Forall2_diag, Forall_forall.
  intros j Hj. apply elem_of_seq in Hj.
  rewrite lookup_take_lt by lia. reflexivity.
Qed.


Lemma summary_of_rule report : summary_of report = summary_rule report.
Proof.
  unfold summary_of, summary_rule, slice_to.
  destruct (Nat.ltb_spec 500 (length report)); case_decide; (reflexivity || lia).
Qed.

(** ** The claims *)

(** C5: [get_settings] is total and never raises; it returns the fixed
    record of each of quick, moderate and deep, and the moderate record
    for every other input, so that the settings of "bogus" are those of
    "moderate". *)
Theorem get_settings_total (depth : pystr) :
  get_settings depth =
    Ok (if decide (depth = u "quick") then
          {| max_sources := 5; max_iterations := 2;
             report_type := u "research_report" |}
        else if decide (depth = u "deep") then
          {| max_sources := 20; max_iterations := 6;
             report_type := u "detailed_report" |}
        else
          {| max_sources := 10; max_iterations := 4;
             report_type := u "research_report" |}) ∧
  get_settings (u "moderate") =
    Ok {| max_sources := 10; max_iterations := 4;
          report_type := u "research_report" |} ∧
  get_settings (u "bogus") = get_settings (u "moderate").
Proof.
  split; [apply get_settings_cases|].
  split; vm_compute; reflexivity.
Qed.

Section Claims.

Context {lib : PyLib}.

(** C7: the capture around the engine calls ends with [sys.stdout] bound
    to the stream it was bound to on entry, whether the body returns or
    raises and whatever it wrote; the outcome of the capture is the
    outcome of its body, so the classification of the captured text
    changes neither the result nor the control flow. The capture writes
    nothing to standard output, and to standard error only the lines of
    the records it logs. *)
Theorem capture_restores_stdout {A} (body : M A) (w : world) :
  let '(w', outcome) := capture_stdout body w in
  sys_stdout w' = sys_stdout w ∧
  outcome = (body (capturing w)).2 ∧
  stdout w' = stdout (body (capturing w)).1 ∧
  logs_only (body (capturing w)).1 w'.
Proof.
  destruct (capture_stdout_outcome body w)
    as (w' & -> & Hs & Ho & _ & _ & Hl & He).
  repeat split; try assumption.
  eexists. split; eassumption.
Qed.

(** C1: every run of the entry point ends in one of two ways, decided
    by its checks and by [conduct_research]. When the checks pass and
    [conduct_research] returns findings, the run exits with code 0,
    standard output holds exactly one write, the findings serialized
    with indent 2, and standard error holds the lines of the logging
    handler and no envelope. In every other case the run exits with code
    1, nothing is written to standard output, and exactly one envelope,
    a serialized dictionary with an [error] entry, is printed on
    standard error, after the lines of the logging handler if there are
    any. *)
Theorem one_document_per_run argv environ gpt_researcher :
  let '(w, code) := main argv environ gpt_researcher initial in
  match first_failing_check argv environ with
  | Accepted instructions depth =>
      match (conduct_research gpt_researcher instructions depth initial).2 with
      | Ok findings =>
          code = 0 ∧
          stdout w = [json_dumps (Some 2%nat) findings ++ nl] ∧
          stderr w = emitted (logged w)
      | Raise e =>
          code = 1 ∧
          stdout w = [] ∧
          stderr w =
            emitted (logged w) ++
            [json_dumps None
               (VDict [
                  (u "error", VStr (u "Research failed"));
                  (u "message", VStr (exn_str e));
                  (u "type", VStr (class_name (exn_class e)))]) ++ nl]
      end
  | MissingInputs =>
      code = 1 ∧ stdout w = [] ∧ logged w = [] ∧
      stderr w = [json_dumps None usage_error ++ nl] ∧
      field (u "error") usage_error =
        Some (VStr (u "Missing required arguments"))
  | InvalidDepth depth =>
      code = 1 ∧ stdout w = [] ∧ logged w = [] ∧
      stderr w = [json_dumps None (depth_error depth) ++ nl] ∧
      field (u "error") (depth_error depth) =
        Some (VStr (u "Invalid depth: " ++ depth))
  | MissingCredential =>
      code = 1 ∧ stdout w = [] ∧ logged w = [] ∧
      stderr w = [json_dumps None credential_error ++ nl] ∧
      field (u "error") credential_error =
        Some (VStr (u "OPENAI_API_KEY environment variable not set"))
  end.
Proof.
  rewrite main_by_check.
  destruct (first_failing_check argv environ) as [|bad| |instructions depth].
  - repeat split.
  - repeat split.
  - repeat split.
  - pose proof (conduct_research_frame gpt_researcher instructions depth initial)
      as (Hs & Ho & He%logs_only_initial).
    destruct (conduct_research gpt_researcher instructions depth initial)
      as [w1 [findings|e]] eqn:Hrun; cbn [fst snd] in *.
    + split; [reflexivity|].
      unfold print, write_sys_stdout. rewrite Hs. cbn -[u emitted].
      rewrite Ho, He. auto.
    + split; [reflexivity|]. cbn -[u emitted]. rewrite Ho, He. auto.
Qed.

(** C10: in the findings returned when the engine cannot be imported,
    [metadata.maxSources] and [metadata.maxIterations] are those of the
    settings of the requested depth, and [metadata.reportType] is the
    literal "poc_mode", which is the report type of no depth. *)
Theorem fallback_metadata e instructions depth w :
  is_ImportError (exn_class e) = true →
  ∃ w' config findings metadata,
    conduct_research (NotLoadable e) instructions depth w = (w', Ok findings) ∧
    get_settings depth = Ok config ∧
    field (u "metadata") findings = Some metadata ∧
    field (u "maxSources") metadata = Some (VInt (max_sources config)) ∧
    field (u "maxIterations") metadata = Some (VInt (max_iterations config)) ∧
    field (u "reportType") metadata = Some (VStr (u "poc_mode")) ∧
    report_type config ≠ u "poc_mode".
Proof.
  intros Himp.
  destruct (conduct_research_fallback e instructions depth _ w Himp
              (get_settings_cases depth)) as (w' & Hrun & _).
  eexists w', _, _, _. split; [exact Hrun|].
  split; [apply get_settings_cases|].
  split; [reflexivity|].
  repeat (split; [reflexivity|]).
  repeat case_decide; vm_compute; congruence.
Qed.

(** C4: when the import of the engine fails with an [ImportError],
    [conduct_research] returns findings whose summary says they are test
    data and whose full report says they are simulated data, with the
    two fixed example sources, [sourcesAnalyzed] 2 and [metadata.mode]
    "POC"; a run whose inputs pass the checks of the entry point prints
    these findings and exits with code 0. *)
Theorem fallback_when_engine_unavailable
    e prog instructions depth rest environ key :
  is_ImportError (exn_class e) = true →
  depth ∈ valid_depths →
  environ !! u "OPENAI_API_KEY" = Some key →
  key ≠ [] →
  ∃ w findings summary fullReport metadata,
    (conduct_research (NotLoadable e) instructions depth initial).2 = Ok findings ∧
    field (u "summary") findings = Some (VStr summary) ∧
    contains (u "This is TEST DATA") summary = true ∧
    field (u "fullReport") findings = Some (VStr fullReport) ∧
    contains (u "This is simulated data") fullReport = true ∧
    field (u "sources") findings =
      Some (VList [
        VDict [(u "url", VStr (u "https://example.com/source1"));
               (u "title", VStr (u "Example Source 1"))];
        VDict [(u "url", VStr (u "https://example.com/source2"));
               (u "title", VStr (u "Example Source 2"))]]) ∧
    field (u "sourcesAnalyzed") findings = Some (VInt 2) ∧
    field (u "metadata") findings = Some metadata ∧
    field (u "mode") metadata = Some (VStr (u "POC")) ∧
    main (prog :: instructions :: depth :: rest) environ (NotLoadable e) initial
      = (w, 0) ∧
    stdout w = [json_dumps (Some 2%nat) findings ++ nl].
Proof.
  intros Himp Hd Hk Hne.
  destruct (conduct_research_fallback e instructions depth _ initial Himp
              (get_settings_cases depth)) as (w1 & Hrun & Hs & Ho & _).
  eexists _, _, _, _, _. rewrite Hrun.
  split; [reflexivity|].
  split; [reflexivity|].
  split; [vm_compute; reflexivity|].
  split; [reflexivity|].
  split.
  { replace (u " This is simulated data because GPT Researcher is not installed.")
      with (u " " ++ u "This is simulated data" ++
            u " because GPT Researcher is not installed.")
      by (vm_compute; reflexivity).
    find_substring. }
  split; [reflexivity|].
  split; [reflexivity|].
  split; [reflexivity|].
  split; [reflexivity|].
  rewrite main_by_check.
  rewrite (first_failing_check_accepted _ _ _ _ _ _ Hd Hk Hne), Hrun.
  split; [reflexivity|].
  unfold print, write_sys_stdout. rewrite Hs. simpl. rewrite Ho. reflexivity.
Qed.

(** C2, as amended: in the findings built from the engine's report the
    summary is the full report when that has at most 500 characters and
    otherwise its first 500 characters followed by "..."; in the
    findings of the fallback the summary is the fixed placeholder
    sentence. *)
Theorem summary_of_findings gpt_researcher instructions depth config report sources :
  get_settings depth = Ok config →
  match gpt_researcher with
  | Installed G =>
      engine_returns G instructions config (PyStr report) sources ∧
      (sources = PyNone ∨ ∃ items, sources = PyList items)
  | NotLoadable e => is_ImportError (exn_class e) = true
  end →
  ∃ findings fullReport,
    (conduct_research gpt_researcher instructions depth initial).2 = Ok findings ∧
    field (u "fullReport") findings = Some (VStr fullReport) ∧
    field (u "summary") findings =
      Some (VStr
        match gpt_researcher with
        | Installed _ => summary_rule fullReport
        | NotLoadable _ =>
            warning_sign ++
            u " POC MODE: GPT Researcher not installed. This is TEST DATA."
        end) ∧
    match gpt_researcher with
    | Installed _ => fullReport = report
    | NotLoadable _ => True
    end.
Proof.
  intros Hcfg Heng. destruct gpt_researcher as [G|e].
  - destruct Heng as (Hret & Hsrc).
    destruct (conduct_research_installed G instructions depth _ initial Hcfg)
      as (w' & -> & _).
    rewrite (engine_calls_returns _ _ _ _ _ _ Hret). simpl.
    exists (findings_of instructions depth report (url_list sources) config), report.
    split.
    { destruct Hsrc as [->|(items & ->)]; reflexivity. }
    split; [reflexivity|].
    split; [|reflexivity].
    rewrite <- summary_of_rule. reflexivity.
  - destruct (conduct_research_fallback e instructions depth _ initial Heng Hcfg)
      as (w' & -> & _).
    eexists _, _. split; [reflexivity|].
    split; [reflexivity|]. split; [reflexivity|exact I].
Qed.

(** C3, as amended: when the engine answers with a list of URLs (or
    with [None], read as the empty list), the sources of the findings
    are the truthy entries among the first [maxSources] entries of that
    list, in their order; each carries [str] of the entry as its url and
    the title "Source k" for its 1-based position k in the engine's
    list. *)
Theorem sources_of_findings G instructions depth config report sources :
  get_settings depth = Ok config →
  engine_returns G instructions config (PyStr report) sources →
  sources = PyNone ∨ (∃ items, sources = PyList items) →
  ∃ findings,
    (conduct_research (Installed G) instructions depth initial).2 = Ok findings ∧
    field (u "sources") findings =
      Some (VList (sources_by_position (url_list sources)
                     (Z.to_nat (max_sources config)))).
Proof.
  intros Hcfg Hret Hsrc.
  destruct (conduct_research_installed G instructions depth _ initial Hcfg)
    as (w' & -> & _).
  rewrite (engine_calls_returns _ _ _ _ _ _ Hret). simpl.
  exists (findings_of instructions depth report (url_list sources) config).
  split.
  { destruct Hsrc as [->|(items & ->)]; reflexivity. }
  change (field (u "sources") (findings_of instructions depth report
                                 (url_list sources) config))
    with (Some (VList (source_entries (url_list sources) config))).
  rewrite source_entries_by_position; [reflexivity|].
  pose proof (get_settings_bounds _ _ Hcfg). lia.
Qed.

(** C6: the findings printed by a run that exits with code 0 have at
    most [metadata.maxSources] sources and a [sourcesAnalyzed] that is
    at least the number of their sources; with the engine installed,
    [sourcesAnalyzed] is the length of the list of URLs the engine
    returned, before any truncation. *)
Theorem emitted_sources_bounds argv environ gpt_researcher :
  (main argv environ gpt_researcher initial).2 = 0 →
  ∃ findings entries analyzed metadata maxSources,
    stdout (main argv environ gpt_researcher initial).1 =
      [json_dumps (Some 2%nat) findings ++ nl] ∧
    field (u "sources") findings = Some (VList entries) ∧
    field (u "sourcesAnalyzed") findings = Some (VInt analyzed) ∧
    field (u "metadata") findings = Some metadata ∧
    field (u "maxSources") metadata = Some (VInt maxSources) ∧
    Z.of_nat (length entries) ≤ maxSources ∧
    Z.of_nat (length entries) ≤ analyzed ∧
    match gpt_researcher with
    | Installed G =>
        ∃ instructions depth config report sources,
          first_failing_check argv environ = Accepted instructions depth ∧
          get_settings depth = Ok config ∧
          engine_returns G instructions config report sources ∧
          analyzed = Z.of_nat (length (url_list sources))
    | NotLoadable _ => analyzed = 2
    end.
Proof.
  intros Hcode.
  destruct (main argv environ gpt_researcher initial) as [w code] eqn:Hmain.
  simpl in Hcode. subst code.
  apply main_exit_0_inv in Hmain
    as (instructions & depth & w1 & findings & Hcheck & Hrun & ->).
  pose proof (conduct_research_frame gpt_researcher instructions depth initial)
    as (Hs & Ho & _).
  rewrite Hrun in Hs, Ho. simpl in Hs, Ho.
  apply conduct_research_ok_inv in Hrun as (config & Hcfg & Hf).
  pose proof (get_settings_bounds _ _ Hcfg) as Hmax.
  assert (Hout : stdout (print (json_dumps (Some 2%nat) findings) w1) =
                 [json_dumps (Some 2%nat) findings ++ nl]).
  { unfold print, write_sys_stdout. rewrite Hs. simpl. rewrite Ho. reflexivity. }
  destruct gpt_researcher as [G|e].
  - destruct Hf as (report & sources & report_text & items & Hret & Hval & ->).
    apply validate_ok_inv in Hval as (-> & -> & _).
    pose proof (length_source_entries (url_list sources) config) as Hlen.
    eexists _, _, _, _, _.
    split; [exact Hout|].
    do 4 (split; [reflexivity|]).
    split; [lia|]. split; [lia|].
    exists instructions, depth, config, (PyStr report_text), sources. auto.
  - destruct Hf as (_ & ->).
    eexists _, _, _, _, _.
    split; [exact Hout|].
    do 4 (split; [reflexivity|]).
    simpl. split; [lia|]. split; [lia|]. reflexivity.
Qed.

(** C8, as amended: the entry point checks, in this order, that at
    least two positional inputs are present (further ones are ignored),
    that the depth is one of quick, moderate and deep, and that the
    credential variable is set and not empty. The first check that fails
    decides the run: exactly its envelope is printed on standard error,
    with the keys [error, usage, example], [error, valid_depths] or
    [error, solution], the exit code is 1, and no call into the engine
    is made. When all three pass, the run is that of
    [conduct_research]. *)
Theorem checks_in_order argv environ gpt_researcher w :
  let '(w', code) := main argv environ gpt_researcher w in
  match first_failing_check argv environ with
  | MissingInputs =>
      w' = print_stderr (json_dumps None usage_error) w ∧ code = 1 ∧
      calls w' = calls w ∧
      keys usage_error = [u "error"; u "usage"; u "example"]
  | InvalidDepth depth =>
      w' = print_stderr (json_dumps None (depth_error depth)) w ∧ code = 1 ∧
      calls w' = calls w ∧
      keys (depth_error depth) = [u "error"; u "valid_depths"] ∧
      field (u "error") (depth_error depth) =
        Some (VStr (u "Invalid depth: " ++ depth)) ∧
      field (u "valid_depths") (depth_error depth) =
        Some (VList [VStr (u "quick"); VStr (u "moderate"); VStr (u "deep")])
  | MissingCredential =>
      w' = print_stderr (json_dumps None credential_error) w ∧ code = 1 ∧
      calls w' = calls w ∧
      keys credential_error = [u "error"; u "solution"]
  | Accepted instructions depth =>
      (w', code) =
        match conduct_research gpt_researcher instructions depth w with
        | (w1, Ok findings) => (print (json_dumps (Some 2%nat) findings) w1, 0)
        | (w1, Raise e) => (print_stderr (json_dumps None (research_error e)) w1, 1)
        end
  end.
Proof.
  rewrite main_by_check.
  destruct (first_failing_check argv environ) as [|depth| |instructions depth].
  - repeat split.
  - repeat split.
  - repeat split.
  - destruct (conduct_research gpt_researcher instructions depth w) as [w1 [f|e]];
      reflexivity.
Qed.


End Claims.

(** ** The run of the engine calls *)

Lemma writes_captured_text (texts : list pystr) w :
  sys_stdout w = CapturedOutput →
  captured_output (foldl (fun w' s => write_sys_stdout s w') w texts) =
  captured_output w ++ concat texts.
Proof.
  revert w. induction texts as [|s texts IH]; intros w Hc; simpl.
  - rewrite app_nil_r. reflexivity.
  - destruct (write_sys_stdout_captured s w Hc) as (H1 & _).
    rewrite (IH _ H1). unfold write_sys_stdout. rewrite Hc. simpl.
    rewrite <- (assoc_L (++)). reflexivity.
Qed.

(** A call made while the capture is on. *)
Lemma call_captured {A} c (r : reply A) w :
  sys_stdout w = CapturedOutput →
  (call c r w).2 = returned r ∧
  sys_stdout (call c r w).1 = CapturedOutput ∧
  captured_output (call c r w).1 = captured_output w ++ concat (printed r) ∧
  calls (call c r w).1 = calls w ++ [c] ∧
  logged (call c r w).1 = logged w.
Proof.
  intros Hc. unfold call. simpl.
  destruct (writes_captured (printed r) (with_calls (calls w ++ [c]) w) Hc)
    as (H1 & _ & _ & H4 & H5).
  rewrite (writes_captured_text (printed r) (with_calls (calls w ++ [c]) w) Hc).
  simpl in *. auto.
Qed.

Section Run.

Context {lib : PyLib}.

Lemma bind_call {A B} c (r : reply A) (k : A → M B) w :
  (call c r ≫= k) w =
  match returned r with
  | Ok v => k v (call c r w).1
  | Raise e => ((call c r w).1, Raise e)
  end.
Proof. unfold mbind, M_bind, bind, call. simpl. destruct (returned r); reflexivity. Qed.

Lemma engine_calls_run G instructions config w :
  sys_stdout w = CapturedOutput →
  (engine_calls G instructions config w).2 = engine_outcome G instructions config ∧
  captured_output (engine_calls G instructions config w).1 =
    captured_output w ++ engine_output G instructions config ∧
  calls (engine_calls G instructions config w).1 =
    calls w ++ engine_trace G instructions config ∧
  logged (engine_calls G instructions config w).1 = logged w.
Proof.
  intros Hc. unfold engine_calls, engine_outcome, engine_output, engine_trace.
  rewrite bind_call.
  destruct (call_captured (CallGPTResearcher instructions (report_type config))
              (G instructions (report_type config)) w Hc)
    as (_ & S1 & O1 & C1 & L1).
  set (w1 := (call _ (G instructions (report_type config)) w).1) in *.
  destruct (returned (G instructions (report_type config))) as [researcher|e];
    [|simpl; rewrite app_nil_r; auto].
  rewrite bind_call.
  destruct (call_captured CallConductResearch (r_conduct_research researcher) w1 S1)
    as (_ & S2 & O2 & C2 & L2).
  set (w2 := (call _ (r_conduct_research researcher) w1).1) in *.
  destruct (returned (r_conduct_research researcher)) as [[]|e].
  2:{ simpl. rewrite app_nil_r, O2, O1, C2, C1, L2, L1, <- !(assoc_L (++)).
      auto. }
  rewrite bind_call.
  destruct (call_captured CallWriteReport (r_write_report researcher) w2 S2)
    as (_ & S3 & O3 & C3 & L3).
  set (w3 := (call _ (r_write_report researcher) w2).1) in *.
  destruct (returned (r_write_report researcher)) as [report|e].
  2:{ simpl. rewrite app_nil_r, O3, O2, O1, C3, C2, C1, L3, L2, L1,
        <- !(assoc_L (++)). auto. }
  rewrite bind_call.
  destruct (call_captured CallGetSourceUrls (r_get_source_urls researcher) w3 S3)
    as (_ & S4 & O4 & C4 & L4).
  set (w4 := (call _ (r_get_source_urls researcher) w3).1) in *.
  destruct (returned (r_get_source_urls researcher)) as [sources|e]; simpl;
    rewrite O4, O3, O2, O1, C4, C3, C2, C1, L4, L3, L2, L1, <- !(assoc_L (++));
    auto.
Qed.

(** The log records of the capture: an [ERROR] record when the body
    raised, then the record of the [finally] clause, both only when the
    captured text is not blank. *)
Lemma capture_stdout_logged {A} (body : M A) (w : world) :
  logged (capture_stdout body w).1 =
  logged (body (capturing w)).1 ++
  let text := captured_output (body (capturing w)).1 in
  if nonblank text then
    match (body (capturing w)).2 with
    | Raise _ =>
        [LogRecord (u "research_agent") ERROR
           (u "Research failed with suppressed output: " ++ take 500 text)]
    | Ok _ => []
    end ++
    [if existsb (fun err => contains err (str_lower text)) error_patterns
     then LogRecord (u "research_agent") WARNING
            (u "Suppressed output contained errors: " ++ take 200 text)
     else LogRecord (u "research_agent") DEBUG
            (u "Suppressed output: " ++ take 200 text)]
  else [].
Proof.
  unfold capture_stdout, try_except_finally, capture_handler, capture_finally.
  unfold_monad. cbn -[u existsb error_patterns app take nonblank].
  fold (capturing w).
  destruct (body (capturing w)) as [w1 [v|e]];
    cbn -[u existsb error_patterns app take nonblank];
    destruct (nonblank (captured_output w1)) eqn:Hnb;
    cbn -[u existsb error_patterns app take nonblank];
    rewrite ?Hnb;
    cbn -[u existsb error_patterns app take nonblank];
    try destruct (existsb _ error_patterns);
    cbn -[u existsb error_patterns app take nonblank];
    rewrite ?app_nil_r, <- ?(assoc_L (++)); reflexivity.
Qed.

Lemma conduct_research_installed_world G instructions depth config w :
  get_settings depth = Ok config →
  (conduct_research (Installed G) instructions depth w).1 =
  (capture_stdout (engine_calls G instructions config)
     (with_calls (calls w ++ [CallImport]) w)).1.
Proof.
  intros Hcfg. unfold conduct_research. rewrite Hcfg. unfold_monad. simpl.
  destruct (capture_stdout _ _) as [w1 [[report sources]|e]]; simpl;
    [|reflexivity].
  destruct (validate report sources) as [[report_text items]|e]; reflexivity.
Qed.

(** The whole run of [conduct_research] with the engine installed. *)
Lemma conduct_research_installed_run G instructions depth config w :
  get_settings depth = Ok config →
  let run := conduct_research (Installed G) instructions depth w in
  let text := engine_output G instructions config in
  run.2 =
    match engine_outcome G instructions config with
    | Ok (report, sources) =>
        match validate report sources with
        | Ok (report_text, items) =>
            Ok (findings_of instructions depth report_text items config)
        | Raise e => Raise e
        end
    | Raise e => Raise e
    end ∧
  captured_output run.1 = text ∧
  calls run.1 = calls w ++ CallImport :: engine_trace G instructions config ∧
  logged run.1 =
    logged w ++
    (if nonblank text then
       match engine_outcome G instructions config with
       | Raise _ =>
           [LogRecord (u "research_agent") ERROR
              (u "Research failed with suppressed output: " ++ take 500 text)]
       | Ok _ => []
       end ++
       [if existsb (fun err => contains err (str_lower text)) error_patterns
        then LogRecord (u "research_agent") WARNING
               (u "Suppressed output contained errors: " ++ take 200 text)
        else LogRecord (u "research_agent") DEBUG
               (u "Suppressed output: " ++ take 200 text)]
     else []) ∧
  stderr run.1 =
    stderr w ++
    emitted (capture_records text (raised (engine_outcome G instructions config))).
Proof.
  intros Hcfg run text. subst run.
  set (w0 := with_calls (calls w ++ [CallImport]) w).
  destruct (engine_calls_run G instructions config (capturing w0) eq_refl)
    as (Hres & Hout & Hcalls & Hlog).
  destruct (quiet_engine_calls G instructions config (capturing w0) eq_refl)
    as (_ & _ & Qe & _).
  change (captured_output (capturing w0)) with (@nil N) in Hout.
  change (calls (capturing w0)) with (calls w ++ [CallImport]) in Hcalls.
  change (logged (capturing w0)) with (logged w) in Hlog.
  change (stderr (capturing w0)) with (stderr w) in Qe.
  simpl in Hout.
  split.
  { destruct (conduct_research_installed G instructions depth config w Hcfg)
      as (w' & -> & _). fold w0. simpl. rewrite Hres. reflexivity. }
  rewrite (conduct_research_installed_world G instructions depth config w Hcfg).
  fold w0.
  destruct (capture_stdout_outcome (engine_calls G instructions config) w0)
    as (w1 & Hrun & _ & _ & Hcap & Hcl & _ & He).
  pose proof (capture_stdout_logged (engine_calls G instructions config) w0)
    as Hlg.
  rewrite Hrun in Hlg |- *. simpl in Hlg |- *.
  rewrite Hcap, Hcl, Hlg, He, Qe, Hout, Hcalls, Hlog, Hres.
  rewrite <- (assoc_L (++)). auto.
Qed.

End Run.

(** ** Further properties of the run *)

Lemma engine_trace_prefix G instructions config :
  engine_trace G instructions config `prefix_of`
    [CallGPTResearcher instructions (report_type config);
     CallConductResearch; CallWriteReport; CallGetSourceUrls].
Proof.
  unfold engine_trace.
  apply prefix_cons.
  destruct (returned (G _ _)) as [researcher|e]; [|apply prefix_nil].
  apply prefix_cons.
  destruct (returned (r_conduct_research _)) as [[]|e]; [|apply prefix_nil].
  apply prefix_cons.
  destruct (returned (r_write_report _)) as [report|e]; [|apply prefix_nil].
  reflexivity.
Qed.

Lemma engine_trace_complete G instructions config value :
  engine_outcome G instructions config = Ok value →
  engine_trace G instructions config =
    [CallGPTResearcher instructions (report_type config);
     CallConductResearch; CallWriteReport; CallGetSourceUrls].
Proof.
  unfold engine_outcome, engine_trace.
  destruct (returned (G _ _)) as [researcher|e]; [|discriminate].
  destruct (returned (r_conduct_research _)) as [[]|e]; [|discriminate].
  destruct (returned (r_write_report _)) as [report|e]; [|discriminate].
  reflexivity.
Qed.

Lemma same_answers_outcome G G' instructions config :
  same_answers G G' →
  engine_outcome G instructions config = engine_outcome G' instructions config.
Proof.
  intros Hsame. unfold engine_outcome.
  specialize (Hsame instructions (report_type config)).
  destruct (returned (G _ _)) as [r|e], (returned (G' _ _)) as [r'|e'];
    try contradiction; [|congruence].
  destruct Hsame as (-> & -> & ->). reflexivity.
Qed.

Section Further.

Context {lib : PyLib}.

(** What [main] prints once its checks have passed. *)
Lemma main_accepted_streams argv environ gpt_researcher instructions depth :
  first_failing_check argv environ = Accepted instructions depth →
  let run := main argv environ gpt_researcher initial in
  match (conduct_research gpt_researcher instructions depth initial).2 with
  | Ok findings =>
      run.2 = 0 ∧ stdout run.1 = [json_dumps (Some 2%nat) findings ++ nl] ∧
      stderr run.1 = emitted (logged run.1)
  | Raise e =>
      run.2 = 1 ∧ stdout run.1 = [] ∧
      stderr run.1 =
        emitted (logged run.1) ++ [json_dumps None (research_error e) ++ nl]
  end ∧
  calls run.1 = calls (conduct_research gpt_researcher instructions depth initial).1 ∧
  logged run.1 = logged (conduct_research gpt_researcher instructions depth initial).1.
Proof.
  intros Hcheck run. subst run. rewrite main_by_check, Hcheck.
  pose proof (conduct_research_frame gpt_researcher instructions depth initial)
    as (Hs & Ho & He%logs_only_initial).
  destruct (conduct_research gpt_researcher instructions depth initial)
    as [w1 [findings|e]]; cbn [fst snd] in *.
  - unfold print, write_sys_stdout. rewrite Hs. cbn -[u emitted].
    rewrite Ho, He. auto.
  - cbn -[u emitted]. rewrite Ho, He. auto.
Qed.


(** X2: the engine is called in the order constructor, research,
    report, sources, after the import; the constructor receives the
    instructions as query and the report type of the settings of the
    depth. The calls made are a prefix of that sequence, and all of it
    when none of the calls raises. *)
Theorem engine_calls_in_order G instructions depth w :
  ∃ config,
    get_settings depth = Ok config ∧
    let made := calls (conduct_research (Installed G) instructions depth w).1 in
    let sequence :=
      [CallImport; CallGPTResearcher instructions (report_type config);
       CallConductResearch; CallWriteReport; CallGetSourceUrls] in
    made `prefix_of` calls w ++ sequence ∧
    match engine_outcome G instructions config with
    | Ok _ => made = calls w ++ sequence
    | Raise _ => True
    end.
Proof.
  eexists. split; [apply get_settings_cases|].
  destruct (conduct_research_installed_run G instructions depth _ w
              (get_settings_cases depth)) as (_ & _ & Hcalls & _).
  cbv zeta. rewrite Hcalls. split.
  - apply prefix_app, prefix_cons, engine_trace_prefix.
  - destruct (engine_outcome _ _ _) as [value|e] eqn:Hout; [|exact I].
    rewrite (engine_trace_complete _ _ _ _ Hout). reflexivity.
Qed.


(** X4: what the engine writes to [sys.stdout] during its calls ends
    up in the buffer, in the order of the calls and up to the first call
    that raises, whatever the buffer held before. None of it reaches
    standard output, [sys.stdout] is bound afterwards as it was before,
    and standard error gains only the lines of the records that the
    capture logs about the text: its first 500 characters in an [ERROR]
    record when a call raised, and its first 200 characters in the
    closing record. *)
Theorem engine_output_is_captured G instructions depth w :
  ∃ config,
    get_settings depth = Ok config ∧
    let after := (conduct_research (Installed G) instructions depth w).1 in
    let text := engine_output G instructions config in
    captured_output after = text ∧
    stdout after = stdout w ∧
    sys_stdout after = sys_stdout w ∧
    stderr after =
      stderr w ++
      emitted
        (if nonblank text then
           match engine_outcome G instructions config with
           | Raise _ =>
               [LogRecord (u "research_agent") ERROR
                  (u "Research failed with suppressed output: " ++ take 500 text)]
           | Ok _ => []
           end ++
           [if existsb (fun err => contains err (str_lower text))
                 [u "error"; u "failed"; u "timeout"; u "exception"]
            then LogRecord (u "research_agent") WARNING
                   (u "Suppressed output contained errors: " ++ take 200 text)
            else LogRecord (u "research_agent") DEBUG
                   (u "Suppressed output: " ++ take 200 text)]
         else []).
Proof.
  eexists. split; [apply get_settings_cases|].
  destruct (conduct_research_installed_run G instructions depth _ w
              (get_settings_cases depth)) as (_ & Hcap & _ & _ & Herr).
  destruct (conduct_research_frame (Installed G) instructions depth w)
    as (Hs & Ho & _).
  cbv zeta in *. repeat (split; [assumption|]).
  rewrite Herr. unfold capture_records.
  destruct (engine_outcome G instructions _); reflexivity.
Qed.

(** X5: the captured text is logged only when it is not blank: first
    as an [ERROR] record with its first 500 characters when an engine
    call raised, and then as one closing record with its first 200
    characters, at [WARNING] when its lower-cased text contains one of
    error, failed, timeout and exception, at [DEBUG] otherwise. *)
Theorem captured_text_log_records G instructions depth w :
  ∃ config,
    get_settings depth = Ok config ∧
    let text := engine_output G instructions config in
    logged (conduct_research (Installed G) instructions depth w).1 =
    logged w ++
    if nonblank text then
      match engine_outcome G instructions config with
      | Raise _ =>
          [LogRecord (u "research_agent") ERROR
             (u "Research failed with suppressed output: " ++ take 500 text)]
      | Ok _ => []
      end ++
      [if existsb (fun err => contains err (str_lower text))
            [u "error"; u "failed"; u "timeout"; u "exception"]
       then LogRecord (u "research_agent") WARNING
              (u "Suppressed output contained errors: " ++ take 200 text)
       else LogRecord (u "research_agent") DEBUG
              (u "Suppressed output: " ++ take 200 text)]
    else [].
Proof.
  eexists. split; [apply get_settings_cases|].
  destruct (conduct_research_installed_run G instructions depth _ w
              (get_settings_cases depth)) as (_ & _ & _ & Hlog & _).
  exact Hlog.
Qed.

(** X6: the fallback makes no call on the engine beyond the import,
    leaves the buffer alone, and logs one [WARNING] record on the root
    logger that carries the text of the import error. *)
Theorem fallback_trace e instructions depth w :
  is_ImportError (exn_class e) = true →
  let after := (conduct_research (NotLoadable e) instructions depth w).1 in
  calls after = calls w ++ [CallImport] ∧
  captured_output after = captured_output w ∧
  logged after =
    logged w ++
    [LogRecord (u "root") WARNING
       (u "GPT Researcher not available: " ++ exn_str e ++
        u ". Running in POC mode.")].
Proof.
  intros Himp. unfold conduct_research. rewrite Himp, get_settings_cases.
  unfold_monad. cbn -[u]. auto.
Qed.


End Further.

(** ** Further properties of the findings *)

Lemma u_inj s t : u s = u t → s = t.
Proof.
  unfold u. intros Heq.
  assert (Hinj : Inj (=) (=) N_of_ascii).
  { intros a b Hab. rewrite <- (ascii_N_embedding a), <- (ascii_N_embedding b).
    congruence. }
  apply (inj (fmap N_of_ascii)) in Heq.
  rewrite <- (string_of_list_ascii_of_string s),
          <- (string_of_list_ascii_of_string t).
  congruence.
Qed.

Lemma str_of_nat_inj n m : str_of_nat n = str_of_nat m → n = m.
Proof.
  unfold str_of_nat. intros Heq%u_inj.
  apply DecimalNat.Unsigned.to_uint_inj.
  pose proof (NilEmpty.usu (Nat.to_uint n)) as Hn.
  pose proof (NilEmpty.usu (Nat.to_uint m)) as Hm.
  congruence.
Qed.

Lemma enumerate_from_indices {A} (l : list A) k :
  fst <$> enumerate_from k l = seq k (length l).
Proof.
  revert k. induction l as [|x l IH]; intros k; [reflexivity|].
  cbn [enumerate_from fmap list_fmap length seq]. f_equal. apply IH.
Qed.

Lemma filter_enumerate_indices (l : list url_item) k :
  NoDup (fst <$> List.filter (fun '(idx, url) => truthy url) (enumerate_from k l)).
Proof.
  apply (sublist_NoDup _ (seq k (length l))); [apply NoDup_seq|].
  rewrite <- enumerate_from_indices.
  generalize (enumerate_from k l). intros pairs.
  induction pairs as [|[idx url] pairs IH]; [reflexivity|].
  cbn [List.filter fmap list_fmap fst].
  destruct (truthy url); [apply sublist_skip | apply sublist_cons]; exact IH.
Qed.

Lemma filter_enumerate_all (l : list url_item) k :
  Forall (fun url => truthy url = true) l →
  List.filter (fun '(idx, url) => truthy url) (enumerate_from k l) =
  enumerate_from k l.
Proof.
  intros Hall. revert k.
  induction Hall as [|x l Hx _ IH]; intros k; [reflexivity|].
  cbn [enumerate_from List.filter]. rewrite Hx, IH. reflexivity.
Qed.

Lemma entries_of_enumerate (l : list url_item) k :
  (fun '(idx, url) => source_entry url (idx + 1)) <$> enumerate_from k l =
  imap (fun j url => source_entry url (k + j + 1)) l.
Proof.
  revert k. induction l as [|x l IH]; intros k; [reflexivity|].
  rewrite imap_cons. cbn [enumerate_from fmap list_fmap].
  replace (k + 0 + 1)%nat with (k + 1)%nat by lia. f_equal.
  rewrite IH. apply imap_ext. intros j y _. unfold compose.
  replace (S k + j + 1)%nat with (k + S j + 1)%nat by lia. reflexivity.
Qed.

Lemma take_filter_all {A} (f : A → bool) n (l : list A) :
  Forall (fun x => f x = true) (take n l) →
  take n (List.filter f l) = take n l.
Proof.
  revert l. induction n as [|n IH]; intros l Hall; [reflexivity|].
  destruct l as [|x l]; [reflexivity|].
  cbn [take] in Hall. apply Forall_cons in Hall as [Hx Hall].
  cbn [List.filter]. rewrite Hx. cbn [take]. f_equal. apply IH, Hall.
Qed.

Lemma urls_of_filter_enumerate (l : list url_item) k :
  (fun '(idx, url) => py_str url) <$>
    List.filter (fun '(idx, url) => truthy url) (enumerate_from k l) =
  py_str <$> List.filter truthy l.
Proof.
  revert k. induction l as [|x l IH]; intros k; [reflexivity|].
  cbn [enumerate_from List.filter].
  destruct (truthy x); cbn [fmap list_fmap]; rewrite IH; reflexivity.
Qed.

Lemma summary_of_bounds report :
  (length (summary_of report) ≤ 503)%nat ∧
  take 500 (summary_of report) = take 500 report ∧
  ((500 < length report)%nat → length (summary_of report) = 503%nat) ∧
  ((length report ≤ 500)%nat → summary_of report = report).
Proof.
  unfold summary_of, slice_to.
  assert (Hdots : length (u "...") = 3%nat) by reflexivity.
  destruct (Nat.ltb_spec 500 (length report)) as [Hlong|Hshort].
  - rewrite length_app, length_take, Hdots.
    repeat split; try lia.
    rewrite take_app_le by (rewrite length_take; lia).
    rewrite take_take. f_equal.
  - repeat split; lia.
Qed.

Section Findings.

Context {lib : PyLib}.

(** X8: the findings of the fallback and those of the engine have the
    same shape: the same seven keys in the same order, the instructions
    and the depth echoed as given, and a metadata dictionary that starts
    with [maxSources], [maxIterations] and [reportType]. *)
Theorem findings_shape gpt_researcher instructions depth w :
  match (conduct_research gpt_researcher instructions depth w).2 with
  | Ok findings =>
      keys findings =
        [u "query"; u "depth"; u "summary"; u "fullReport"; u "sources";
         u "sourcesAnalyzed"; u "metadata"] ∧
      field (u "query") findings = Some (VStr instructions) ∧
      field (u "depth") findings = Some (VStr depth) ∧
      ∃ metadata,
        field (u "metadata") findings = Some metadata ∧
        [u "maxSources"; u "maxIterations"; u "reportType"]
          `prefix_of` keys metadata
  | Raise _ => True
  end.
Proof.
  destruct (conduct_research gpt_researcher instructions depth w)
    as [w1 [findings|e]] eqn:Hrun; [|exact I].
  apply conduct_research_ok_inv in Hrun as (config & _ & Hf).
  destruct gpt_researcher as [G|e].
  - destruct Hf as (report & sources & report_text & items & _ & _ & ->).
    repeat (split; [reflexivity|]).
    eexists. split; [reflexivity|]. reflexivity.
  - destruct Hf as (_ & ->).
    repeat (split; [reflexivity|]).
    eexists. split; [reflexivity|].
    exists [u "mode"; u "status"; u "warning"]. reflexivity.
Qed.

(** X9: the summary built from the engine's report never has more than
    503 characters, has exactly 503 when the report has more than 500,
    and agrees with the report on its first 500 characters. *)
Theorem summary_length_bound G instructions depth w :
  match (conduct_research (Installed G) instructions depth w).2 with
  | Ok findings =>
      ∃ summary report,
        field (u "summary") findings = Some (VStr summary) ∧
        field (u "fullReport") findings = Some (VStr report) ∧
        (length summary ≤ 503)%nat ∧
        take 500 summary = take 500 report ∧
        ((500 < length report)%nat → length summary = 503%nat)
  | Raise _ => True
  end.
Proof.
  destruct (conduct_research (Installed G) instructions depth w)
    as [w1 [findings|e]] eqn:Hrun; [|exact I].
  apply conduct_research_ok_inv in Hrun as (config & _ & Hf).
  destruct Hf as (report & sources & report_text & items & _ & _ & ->).
  destruct (summary_of_bounds report_text) as (H1 & H2 & H3 & _).
  exists (summary_of report_text), report_text.
  split; [reflexivity|]. split; [reflexivity|]. auto.
Qed.

(** X10: every source of the findings is a dictionary with the keys
    [url] and [title], in this order, and no two sources of one findings
    dictionary carry the same title. *)
Theorem source_titles_distinct G instructions depth w :
  match (conduct_research (Installed G) instructions depth w).2 with
  | Ok findings =>
      ∃ entries,
        field (u "sources") findings = Some (VList entries) ∧
        Forall (fun entry => keys entry = [u "url"; u "title"]) entries ∧
        NoDup (field (u "title") <$> entries)
  | Raise _ => True
  end.
Proof.
  destruct (conduct_research (Installed G) instructions depth w)
    as [w1 [findings|e]] eqn:Hrun; [|exact I].
  apply conduct_research_ok_inv in Hrun as (config & _ & Hf).
  destruct Hf as (report & sources & report_text & items & _ & _ & ->).
  exists (source_entries items config). split; [reflexivity|].
  unfold source_entries.
  set (pairs := List.filter _ _).
  split.
  - apply Forall_fmap, Forall_forall. intros [idx url] _. reflexivity.
  - rewrite <- list_fmap_compose.
    rewrite (list_fmap_ext _
               ((fun idx => Some (VStr (u "Source " ++ str_of_nat (idx + 1)))) ∘ fst))
      by (intros ? [idx url] ?; reflexivity).
    rewrite list_fmap_compose.
    apply NoDup_fmap_2; [|apply filter_enumerate_indices].
    intros i j Heq.
    assert (Htitle : u "Source " ++ str_of_nat (i + 1) =
                     u "Source " ++ str_of_nat (j + 1)) by congruence.
    apply app_inv_head, str_of_nat_inj in Htitle. lia.
Qed.

(** X11: when none of the first [maxSources] entries of the engine's
    list is falsy, the sources are those of discarding first and
    truncating afterwards, numbered consecutively from 1. *)
Theorem sources_agree_without_falsy G instructions depth config report sources :
  get_settings depth = Ok config →
  engine_returns G instructions config (PyStr report) sources →
  sources = PyNone ∨ (∃ items, sources = PyList items) →
  Forall (fun url => truthy url = true)
    (take (Z.to_nat (max_sources config)) (url_list sources)) →
  ∃ findings,
    (conduct_research (Installed G) instructions depth initial).2 = Ok findings ∧
    field (u "sources") findings =
      Some (VList (sources_rule (url_list sources)
                     (Z.to_nat (max_sources config)))).
Proof.
  intros Hcfg Hret Hsrc Hall.
  destruct (conduct_research_installed G instructions depth _ initial Hcfg)
    as (w' & -> & _).
  rewrite (engine_calls_returns _ _ _ _ _ _ Hret). simpl.
  exists (findings_of instructions depth report (url_list sources) config).
  split.
  { destruct Hsrc as [->|(items & ->)]; reflexivity. }
  change (field (u "sources") (findings_of instructions depth report
                                 (url_list sources) config))
    with (Some (VList (source_entries (url_list sources) config))).
  do 2 f_equal.
  pose proof (get_settings_bounds _ _ Hcfg) as Hmax.
  unfold source_entries, sources_rule, slice_to_Z, enumerate.
  rewrite (proj2 (Z.leb_le 0 (max_sources config))) by lia.
  rewrite (filter_enumerate_all _ _ Hall), (take_filter_all _ _ _ Hall).
  etransitivity; [apply (entries_of_enumerate _ 0)|]. reflexivity.
Qed.

(** X12: the urls of the sources are [str] of the truthy entries among
    the first [maxSources] entries of the engine's list, in the order of
    that list. *)
Theorem source_urls_in_order G instructions depth config report sources :
  get_settings depth = Ok config →
  engine_returns G instructions config (PyStr report) sources →
  sources = PyNone ∨ (∃ items, sources = PyList items) →
  ∃ findings entries,
    (conduct_research (Installed G) instructions depth initial).2 = Ok findings ∧
    field (u "sources") findings = Some (VList entries) ∧
    field (u "url") <$> entries =
      (fun url => Some (VStr (py_str url))) <$>
        List.filter truthy
          (take (Z.to_nat (max_sources config)) (url_list sources)).
Proof.
  intros Hcfg Hret Hsrc.
  destruct (conduct_research_installed G instructions depth _ initial Hcfg)
    as (w' & -> & _).
  rewrite (engine_calls_returns _ _ _ _ _ _ Hret). simpl.
  exists (findings_of instructions depth report (url_list sources) config),
         (source_entries (url_list sources) config).
  split.
  { destruct Hsrc as [->|(items & ->)]; reflexivity. }
  split; [reflexivity|].
  pose proof (get_settings_bounds _ _ Hcfg) as Hmax.
  unfold source_entries, slice_to_Z, enumerate.
  rewrite (proj2 (Z.leb_le 0 (max_sources config))) by lia.
  rewrite <- list_fmap_compose.
  rewrite (list_fmap_ext _
             ((fun s => Some (VStr s)) ∘ (fun '(idx, url) => py_str url)))
    by (intros ? [idx url] ?; reflexivity).
  rewrite list_fmap_compose, urls_of_filter_enumerate, <- list_fmap_compose.
  reflexivity.
Qed.

(** X13: what the engine writes to [sys.stdout] during its calls does
    not reach the result: two engines whose calls end alike give runs
    with the same exit code, the same contents of standard output and
    the same document printed on standard error, whatever either of them
    wrote; their standard errors differ at most in the lines of the
    logging handler that precede that document. *)
Theorem engine_output_does_not_matter G G' argv environ :
  same_answers G G' →
  let run := main argv environ (Installed G) initial in
  let run' := main argv environ (Installed G') initial in
  run.2 = run'.2 ∧
  stdout run.1 = stdout run'.1 ∧
  ∃ printed_documents,
    stderr run.1 = emitted (logged run.1) ++ printed_documents ∧
    stderr run'.1 = emitted (logged run'.1) ++ printed_documents.
Proof.
  intros Hsame run run'. subst run run'.
  destruct (first_failing_check argv environ) as [|bad| |instructions depth]
    eqn:Hcheck.
  1-3: rewrite !main_by_check, Hcheck; repeat split;
       eexists; split; reflexivity.
  pose proof (main_accepted_streams argv environ (Installed G) _ _ Hcheck)
    as (H1 & _).
  pose proof (main_accepted_streams argv environ (Installed G') _ _ Hcheck)
    as (H2 & _).
  destruct (conduct_research_installed_run G instructions depth _ initial
              (get_settings_cases depth)) as (R1 & _).
  destruct (conduct_research_installed_run G' instructions depth _ initial
              (get_settings_cases depth)) as (R2 & _).
  rewrite R1 in H1. rewrite R2, <- (same_answers_outcome G G' _ _ Hsame) in H2.
  destruct (match engine_outcome G instructions _ with Ok _ => _ | Raise _ => _ end)
    as [findings|e];
    destruct H1 as (-> & -> & E1), H2 as (-> & -> & E2).
  - repeat split. exists []. rewrite !app_nil_r. auto.
  - repeat split. eexists. split; eassumption.
Qed.

(** X14: a credential variable that is set to the empty string counts
    as missing: the run ends with the credential envelope and exit code
    1 before anything of the engine is touched. *)
Theorem empty_credential_is_missing
    prog instructions depth rest environ gpt_researcher w :
  depth ∈ valid_depths →
  environ !! u "OPENAI_API_KEY" = Some [] →
  main (prog :: instructions :: depth :: rest) environ gpt_researcher w =
  (print_stderr
     (json_dumps None
        (VDict [
           (u "error", VStr (u "OPENAI_API_KEY environment variable not set"));
           (u "solution", VStr (u "Set OPENAI_API_KEY in .env file"))])) w,
   1).
Proof.
  intros Hd Hk. rewrite main_by_check. unfold first_failing_check.
  cbn [length]. rewrite decide_False by lia. cbn -[u].
  rewrite decide_False by (unfold valid_depths in Hd; tauto).
  rewrite Hk. reflexivity.
Qed.

(** X15: a run exits with code 0 exactly when its inputs pass the three
    checks and either the import fails with an [ImportError], or every
    engine call returns, the report is a string and the sources are
    [None] or a list. *)
Theorem exit_code_0_iff argv environ gpt_researcher :
  (main argv environ gpt_researcher initial).2 = 0 ↔
  ∃ instructions depth,
    first_failing_check argv environ = Accepted instructions depth ∧
    match gpt_researcher with
    | NotLoadable e => is_ImportError (exn_class e) = true
    | Installed G =>
        ∃ config report sources,
          get_settings depth = Ok config ∧
          engine_returns G instructions config (PyStr report) sources ∧
          (sources = PyNone ∨ ∃ items, sources = PyList items)
    end.
Proof.
  split.
  - destruct (main argv environ gpt_researcher initial) as [w code] eqn:Hmain.
    cbn [snd]. intros ->.
    apply main_exit_0_inv in Hmain
      as (instructions & depth & w1 & findings & Hcheck & Hrun & _).
    exists instructions, depth. split; [exact Hcheck|].
    apply conduct_research_ok_inv in Hrun as (config & Hcfg & Hf).
    destruct gpt_researcher as [G|e]; [|tauto].
    destruct Hf as (report & sources & report_text & items & Hret & Hval & _).
    apply validate_ok_inv in Hval as (-> & _ & Hsrc).
    exists config, report_text, sources. repeat split; [exact Hcfg|exact Hret|].
    destruct Hsrc as [?|?]; [left|right; exists items]; assumption.
  - intros (instructions & depth & Hcheck & Hm).
    pose proof (main_accepted_streams argv environ gpt_researcher _ _ Hcheck)
      as (Hstreams & _).
    destruct gpt_researcher as [G|e].
    + destruct Hm as (config & report & sources & Hcfg & Hret & Hsrc).
      destruct (conduct_research_installed G instructions depth _ initial Hcfg)
        as (w' & Hrun & _).
      rewrite Hrun, (engine_calls_returns _ _ _ _ _ _ Hret) in Hstreams.
      cbn [snd] in Hstreams.
      destruct Hsrc as [->|(items & ->)]; cbn [validate] in Hstreams;
        apply Hstreams.
    + destruct (conduct_research_fallback e instructions depth _ initial Hm
                  (get_settings_cases depth)) as (w' & Hrun & _).
      rewrite Hrun in Hstreams. apply Hstreams.
Qed.

End Findings.

(** ** Where the code departs from the specification *)

(** C2 fails on the fallback: its full report has fewer than 500
    characters, and its summary is another text. *)
Lemma summary_rule_fails_on_fallback :
  ∃ findings summary fullReport,
    (conduct_research (lib := ascii_lib) (NotLoadable module_missing)
       backgammon (u "moderate") initial).2 = Ok findings ∧
    field (u "summary") findings = Some (VStr summary) ∧
    field (u "fullReport") findings = Some (VStr fullReport) ∧
    (length fullReport ≤ 500)%nat ∧
    summary ≠ fullReport ∧
    summary ≠ summary_rule fullReport.
Proof.
  exists (poc_findings backgammon (u "moderate") moderate_settings).
  eexists _, _.
  split; [vm_compute; reflexivity|].
  split; [reflexivity|].
  split; [reflexivity|].
  split; [vm_compute; lia|].
  split; vm_compute; discriminate.
Qed.

(** C3 fails on a list whose first URL is empty: the program truncates
    before it discards, and numbers the entries by their position in the
    engine's list. *)
Lemma sources_rule_fails_on_empty_url :
  ∃ findings entries,
    (conduct_research (lib := ascii_lib)
       (Installed (sample_engine [] (PyStr (u "report")) (PyList six_urls)))
       (u "topic") (u "quick") initial).2 = Ok findings ∧
    field (u "sources") findings = Some (VList entries) ∧
    entries =
      [source_entry (ItemStr (u "http://a")) 2;
       source_entry (ItemStr (u "http://b")) 3;
       source_entry (ItemStr (u "http://c")) 4;
       source_entry (ItemStr (u "http://d")) 5] ∧
    sources_rule six_urls 5 =
      [source_entry (ItemStr (u "http://a")) 1;
       source_entry (ItemStr (u "http://b")) 2;
       source_entry (ItemStr (u "http://c")) 3;
       source_entry (ItemStr (u "http://d")) 4;
       source_entry (ItemStr (u "http://e")) 5] ∧
    entries ≠ sources_rule six_urls 5.
Proof.
  exists (findings_of (u "topic") (u "quick") (u "report") six_urls quick_settings).
  eexists.
  split; [vm_compute; reflexivity|].
  split; [reflexivity|].
  split; [vm_compute; reflexivity|].
  split; [vm_compute; reflexivity|].
  vm_compute. discriminate.
Qed.

(** C8 fails on a command line with three positional inputs: no check
    rejects it, no envelope is printed, the engine is imported and the
    run exits with code 0. *)
Lemma extra_input_is_accepted :
  let argv := [u "research_agent.py"; u "x"; u "quick"; u "extra"] in
  let '(w, code) :=
    main (lib := ascii_lib) argv sample_environ (NotLoadable module_missing)
      initial in
  length (tail argv) ≠ 2%nat ∧
  code = 0 ∧
  stderr w = emitted (lib := ascii_lib) (logged w) ∧
  length (stdout w) = 1%nat ∧
  calls w = [CallImport].
Proof. vm_compute. repeat split; (reflexivity || discriminate). Qed.

(** ** The conditional claims at concrete inputs *)

#[local] Existing Instance ascii_lib.

Lemma sample_engine_returns chatter report sources instructions config :
  engine_returns (sample_engine chatter report sources) instructions config
    report sources.
Proof. eexists. repeat split; reflexivity. Defined.

(** C10 at the depth "deep", with the module missing. *)
Lemma fallback_metadata_witness :
  is_ImportError (exn_class module_missing) = true ∧
  ∃ w' config findings metadata,
    conduct_research (lib := ascii_lib) (NotLoadable module_missing)
      backgammon (u "deep") initial = (w', Ok findings) ∧
    get_settings (u "deep") = Ok config ∧
    field (u "metadata") findings = Some metadata ∧
    field (u "maxSources") metadata = Some (VInt (max_sources config)) ∧
    field (u "maxIterations") metadata = Some (VInt (max_iterations config)) ∧
    field (u "reportType") metadata = Some (VStr (u "poc_mode")) ∧
    report_type config ≠ u "poc_mode".
Proof.
  split; [reflexivity|].
  apply (fallback_metadata (lib := ascii_lib) module_missing backgammon
           (u "deep") initial).
  reflexivity.
Defined.

(** C4 on the scenario of the specification: the backgammon request at
    depth "moderate", the credential set, the module missing. *)
Lemma fallback_when_engine_unavailable_witness :
  is_ImportError (exn_class module_missing) = true ∧
  u "moderate" ∈ valid_depths ∧
  sample_environ !! u "OPENAI_API_KEY" = Some (u "sk-test") ∧
  u "sk-test" ≠ [] ∧
  ∃ w findings metadata,
    main (lib := ascii_lib) [u "research_agent.py"; backgammon; u "moderate"]
      sample_environ (NotLoadable module_missing) initial = (w, 0) ∧
    stdout w = [json_dumps (Some 2%nat) findings ++ nl] ∧
    field (u "sourcesAnalyzed") findings = Some (VInt 2) ∧
    field (u "metadata") findings = Some metadata ∧
    field (u "mode") metadata = Some (VStr (u "POC")).
Proof.
  assert (H1 : is_ImportError (exn_class module_missing) = true)
    by reflexivity.
  assert (H2 : u "moderate" ∈ valid_depths)
    by (apply (bool_decide_unpack _); vm_compute; exact I).
  assert (H3 : sample_environ !! u "OPENAI_API_KEY" = Some (u "sk-test"))
    by (vm_compute; reflexivity).
  assert (H4 : u "sk-test" ≠ []) by (vm_compute; discriminate).
  repeat (split; [assumption|]).
  destruct (fallback_when_engine_unavailable (lib := ascii_lib)
              module_missing (u "research_agent.py") backgammon (u "moderate")
              [] sample_environ (u "sk-test") H1 H2 H3 H4)
    as (w & findings & summary & fullReport & metadata & _ & _ & _ & _ & _ &
        _ & Han & Hmeta & Hmode & Hmain & Hout).
  exists w, findings, metadata. auto.
Defined.

(** C2 as amended, on an engine that returns a short report. *)
Lemma summary_of_findings_witness :
  get_settings (u "quick") = Ok quick_settings ∧
  (engine_returns (sample_engine [u "noise"] (PyStr (u "report")) PyNone)
     (u "topic") quick_settings (PyStr (u "report")) PyNone ∧
   (PyNone = PyNone ∨ ∃ items, PyNone = PyList items)) ∧
  ∃ findings,
    (conduct_research (lib := ascii_lib)
       (Installed (sample_engine [u "noise"] (PyStr (u "report")) PyNone))
       (u "topic") (u "quick") initial).2 = Ok findings ∧
    field (u "fullReport") findings = Some (VStr (u "report")) ∧
    field (u "summary") findings = Some (VStr (summary_rule (u "report"))).
Proof.
  assert (H1 : get_settings (u "quick") = Ok quick_settings)
    by (vm_compute; reflexivity).
  assert (H2 : engine_returns (sample_engine [u "noise"] (PyStr (u "report")) PyNone)
                 (u "topic") quick_settings (PyStr (u "report")) PyNone ∧
               (PyNone = PyNone ∨ ∃ items, PyNone = PyList items))
    by (split; [apply sample_engine_returns | left; reflexivity]).
  split; [exact H1|]. split; [exact H2|].
  destruct (summary_of_findings (lib := ascii_lib)
              (Installed (sample_engine [u "noise"] (PyStr (u "report")) PyNone))
              (u "topic") (u "quick") quick_settings (u "report") PyNone H1 H2)
    as (findings & fullReport & Hrun & Hfull & Hsum & ->).
  exists findings. auto.
Defined.

(** C3 as amended, on the list of six URLs at the depth "quick". *)
Lemma sources_of_findings_witness :
  get_settings (u "quick") = Ok quick_settings ∧
  engine_returns (sample_engine [] (PyStr (u "report")) (PyList six_urls))
    (u "topic") quick_settings (PyStr (u "report")) (PyList six_urls) ∧
  (PyList six_urls = PyNone ∨ ∃ items, PyList six_urls = PyList items) ∧
  ∃ findings,
    (conduct_research (lib := ascii_lib)
       (Installed (sample_engine [] (PyStr (u "report")) (PyList six_urls)))
       (u "topic") (u "quick") initial).2 = Ok findings ∧
    field (u "sources") findings =
      Some (VList (sources_by_position six_urls 5)).
Proof.
  assert (H1 : get_settings (u "quick") = Ok quick_settings)
    by (vm_compute; reflexivity).
  assert (H3 : PyList six_urls = PyNone ∨ ∃ items, PyList six_urls = PyList items)
    by (right; eexists; reflexivity).
  split; [exact H1|]. split; [apply sample_engine_returns|]. split; [exact H3|].
  exact (sources_of_findings (lib := ascii_lib)
           (sample_engine [] (PyStr (u "report")) (PyList six_urls))
           (u "topic") (u "quick") quick_settings (u "report") (PyList six_urls)
           H1 (sample_engine_returns _ _ _ _ _) H3).
Defined.

(** C6 on a run over the list of six URLs at the depth "quick". *)
Lemma emitted_sources_bounds_witness :
  let run :=
    main (lib := ascii_lib) [u "research_agent.py"; u "topic"; u "quick"]
      sample_environ
      (Installed (sample_engine [u "noise"] (PyStr (u "report")) (PyList six_urls)))
      initial in
  run.2 = 0 ∧
  ∃ findings entries analyzed metadata maxSources,
    stdout run.1 = [json_dumps (Some 2%nat) findings ++ nl] ∧
    field (u "sources") findings = Some (VList entries) ∧
    field (u "sourcesAnalyzed") findings = Some (VInt analyzed) ∧
    field (u "metadata") findings = Some metadata ∧
    field (u "maxSources") metadata = Some (VInt maxSources) ∧
    Z.of_nat (length entries) ≤ maxSources ∧
    Z.of_nat (length entries) ≤ analyzed.
Proof.
  intros run.
  assert (H1 : run.2 = 0) by (vm_compute; reflexivity).
  split; [exact H1|].
  destruct (emitted_sources_bounds (lib := ascii_lib) _ _ _ H1)
    as (findings & entries & analyzed & metadata & maxSources &
        Hout & Hsrc & Han & Hmeta & Hmax & Hle1 & Hle2 & _).
  exists findings, entries, analyzed, metadata, maxSources. auto 10.
Defined.


(** ** The further properties at concrete inputs *)



(** X6 with the module missing. *)
Lemma fallback_trace_witness :
  is_ImportError (exn_class module_missing) = true ∧
  let after :=
    (conduct_research (NotLoadable module_missing) backgammon (u "moderate")
       initial).1 in
  calls after = calls initial ++ [CallImport] ∧
  captured_output after = captured_output initial ∧
  logged after =
    logged initial ++
    [LogRecord (u "root") WARNING
       (u "GPT Researcher not available: " ++ exn_str module_missing ++
        u ". Running in POC mode.")].
Proof.
  split; [reflexivity|].
  exact (fallback_trace (lib := ascii_lib) module_missing backgammon
           (u "moderate") initial eq_refl).
Defined.


(** X11 on a list of two URLs, neither of them falsy. *)
Lemma sources_agree_without_falsy_witness :
  get_settings (u "quick") = Ok quick_settings ∧
  engine_returns (sample_engine [] (PyStr (u "report")) (PyList two_urls))
    (u "topic") quick_settings (PyStr (u "report")) (PyList two_urls) ∧
  (PyList two_urls = PyNone ∨ ∃ items, PyList two_urls = PyList items) ∧
  Forall (fun url => truthy url = true)
    (take (Z.to_nat (max_sources quick_settings)) (url_list (PyList two_urls))) ∧
  ∃ findings,
    (conduct_research
       (Installed (sample_engine [] (PyStr (u "report")) (PyList two_urls)))
       (u "topic") (u "quick") initial).2 = Ok findings ∧
    field (u "sources") findings =
      Some (VList (sources_rule (url_list (PyList two_urls))
                     (Z.to_nat (max_sources quick_settings)))).
Proof.
  assert (H1 : get_settings (u "quick") = Ok quick_settings)
    by (vm_compute; reflexivity).
  assert (H3 : PyList two_urls = PyNone ∨ ∃ items, PyList two_urls = PyList items)
    by (right; eexists; reflexivity).
  assert (H4 : Forall (fun url => truthy url = true)
                 (take (Z.to_nat (max_sources quick_settings))
                    (url_list (PyList two_urls))))
    by (repeat constructor).
  split; [exact H1|]. split; [apply sample_engine_returns|].
  split; [exact H3|]. split; [exact H4|].
  exact (sources_agree_without_falsy (lib := ascii_lib)
           (sample_engine [] (PyStr (u "report")) (PyList two_urls))
           (u "topic") (u "quick") quick_settings (u "report") (PyList two_urls)
           H1 (sample_engine_returns _ _ _ _ _) H3 H4).
Defined.

(** X12 on the list of six URLs. *)
Lemma source_urls_in_order_witness :
  get_settings (u "quick") = Ok quick_settings ∧
  engine_returns (sample_engine [] (PyStr (u "report")) (PyList six_urls))
    (u "topic") quick_settings (PyStr (u "report")) (PyList six_urls) ∧
  (PyList six_urls = PyNone ∨ ∃ items, PyList six_urls = PyList items) ∧
  ∃ findings entries,
    (conduct_research
       (Installed (sample_engine [] (PyStr (u "report")) (PyList six_urls)))
       (u "topic") (u "quick") initial).2 = Ok findings ∧
    field (u "sources") findings = Some (VList entries) ∧
    field (u "url") <$> entries =
      (fun url => Some (VStr (py_str url))) <$>
        List.filter truthy
          (take (Z.to_nat (max_sources quick_settings))
             (url_list (PyList six_urls))).
Proof.
  assert (H1 : get_settings (u "quick") = Ok quick_settings)
    by (vm_compute; reflexivity).
  assert (H3 : PyList six_urls = PyNone ∨ ∃ items, PyList six_urls = PyList items)
    by (right; eexists; reflexivity).
  split; [exact H1|]. split; [apply sample_engine_returns|]. split; [exact H3|].
  exact (source_urls_in_order (lib := ascii_lib)
           (sample_engine [] (PyStr (u "report")) (PyList six_urls))
           (u "topic") (u "quick") quick_settings (u "report") (PyList six_urls)
           H1 (sample_engine_returns _ _ _ _ _) H3).
Defined.

(** X13 on a quiet and a loud engine with the same answers. *)
Lemma engine_output_does_not_matter_witness :
  let G := sample_engine [] (PyStr (u "report")) (PyList six_urls) in
  let G' := loud_engine (PyStr (u "report")) (PyList six_urls) in
  same_answers G G' ∧
  let run :=
    main [u "research_agent.py"; u "topic"; u "quick"] sample_environ
      (Installed G) initial in
  let run' :=
    main [u "research_agent.py"; u "topic"; u "quick"] sample_environ
      (Installed G') initial in
  run.2 = run'.2 ∧
  stdout run.1 = stdout run'.1 ∧
  ∃ printed_documents,
    stderr run.1 = emitted (logged run.1) ++ printed_documents ∧
    stderr run'.1 = emitted (logged run'.1) ++ printed_documents.
Proof.
  intros G G'.
  assert (H1 : same_answers G G') by (intros query rt; simpl; auto).
  split; [exact H1|].
  exact (engine_output_does_not_matter (lib := ascii_lib) G G'
           [u "research_agent.py"; u "topic"; u "quick"] sample_environ H1).
Defined.

(** X14 on an environment whose credential is empty. *)
Lemma empty_credential_is_missing_witness :
  u "quick" ∈ valid_depths ∧
  empty_key_environ !! u "OPENAI_API_KEY" = Some [] ∧
  main [u "research_agent.py"; u "topic"; u "quick"] empty_key_environ
    (Installed (sample_engine [] (PyStr (u "report")) PyNone)) initial =
  (print_stderr
     (json_dumps None
        (VDict [
           (u "error", VStr (u "OPENAI_API_KEY environment variable not set"));
           (u "solution", VStr (u "Set OPENAI_API_KEY in .env file"))])) initial,
   1).
Proof.
  assert (H1 : u "quick" ∈ valid_depths)
    by (apply (bool_decide_unpack _); vm_compute; exact I).
  assert (H2 : empty_key_environ !! u "OPENAI_API_KEY" = Some [])
    by (vm_compute; reflexivity).
  repeat (split; [assumption|]).
  exact (empty_credential_is_missing (lib := ascii_lib)
           (u "research_agent.py") (u "topic") (u "quick") [] empty_key_environ
           (Installed (sample_engine [] (PyStr (u "report")) PyNone)) initial
           H1 H2).
Defined.
